(** * Notification scheduling and dispatch (api.apps.notifier.models)

    A shallow embedding of [NotificationSchedule] and
    [ContextualNotificationTemplate] from [models.py]: the trigger-window
    evaluators, the audience builders, the template-context resolver and
    the per-channel senders, together with the properties the
    specification states about them.

    Conventions.
    - Instants ([datetime]) and durations ([timedelta]) are integers counting
      microseconds, the resolution of Python's [datetime] module.
    - A Python exception is a value of [exn]; a call that may raise returns a
      [result].  Methods that read or assign attributes of [self] run in the
      monad [M]: a [World] goes in, a result and the [World] as the call left
      it come out, also when the call raised.
    - Django model instances compare equal when they have the same concrete
      model and primary key ([Model.__eq__]); a context dict therefore holds
      [instance]s (class, pk), and is a [gmap] keyed by the slot name. *)

From Stdlib Require Import ZArith Lia Ascii String.
From stdpp Require Import base option list strings gmap.

Local Open Scope Z_scope.

(** ** Exceptions and results *)

Inductive exn : Type :=
| TypeError
| AttributeError
| IndexError
| KeyError
| UnboundLocalError
| OverflowError
| EmailException
| TemplateError.

Inductive result (A : Type) : Type :=
| Ok (a : A)
| Raise (e : exn).
Arguments Ok {A} a.
Arguments Raise {A} e.

#[global] Instance exn_eq_dec : EqDecision exn.
Proof. solve_decision. Defined.

#[global] Instance result_ret : MRet result := fun _ a => Ok a.
#[global] Instance result_bind : MBind result := fun _ _ f r =>
  match r with
  | Ok a => f a
  | Raise e => Raise e
  end.

#[global] Instance result_fmap : FMap result := fun _ _ f r =>
  match r with
  | Ok a => Ok (f a)
  | Raise e => Raise e
  end.

#[global] Instance result_eq_dec {A} `{EqDecision A} : EqDecision (result A).
Proof. solve_decision. Defined.

Definition raises {A} (r : result A) : bool :=
  match r with Ok _ => false | Raise _ => true end.

(** [for x in xs: acc = body(acc, x)], stopping at the first exception. *)
Fixpoint for_each {A B} (xs : list A) (body : B -> A -> result B) (acc : B)
  : result B :=
  match xs with
  | [] => Ok acc
  | x :: xs' => acc' ← body acc x; for_each xs' body acc'
  end.

(** ** Python truthiness of nullable booleans, of optional objects, of lists *)

Definition truthy (b : option bool) : bool :=
  match b with Some true => true | _ => false end.

Definition is_set {A} (o : option A) : bool :=
  match o with Some _ => true | None => false end.

Definition nonempty {A} (l : list A) : bool :=
  match l with [] => false | _ :: _ => true end.

(** [field == "literal"] for a nullable [CharField]. *)
Definition eqs (field : option string) (literal : string) : bool :=
  match field with
  | Some s => bool_decide (s = literal)
  | None => false
  end.

(** ** [datetime.timedelta] *)

Definition us_per_second : Z := 1000000.
Definition us_per_minute : Z := 60 * us_per_second.
Definition us_per_hour : Z := 60 * us_per_minute.
Definition us_per_day : Z := 24 * us_per_hour.
Definition us_per_week : Z := 7 * us_per_day.

(** The constructor normalises to (days, seconds, microseconds) and raises
    [OverflowError] when the day count leaves [-999999999, 999999999]. *)
Definition timedelta (us : Z) : result Z :=
  let days := us / us_per_day in
  if (Z.abs days >? 999999999) then Raise OverflowError else Ok us.

(** ** Model instances *)

Inductive model_class : Type :=
| GaiaUserC | SubjectGroupC | JobC | SessionC | EmployeeC | ClientC | SubjectC.

Record instance : Type := Inst { inst_class : model_class; inst_pk : Z }.

#[global] Instance model_class_eq_dec : EqDecision model_class.
Proof. solve_decision. Defined.
#[global] Instance instance_eq_dec : EqDecision instance.
Proof. solve_decision. Defined.

Record GaiaUser := { gaia_user_pk : Z }.
Record Session := { session_pk : Z }.
Record Employee := { employee_pk : Z; employee_gaia_user : GaiaUser }.
Record Client := {
  client_pk : Z;
  client_category : string;
  client_gaia_user : GaiaUser;
  client_contacts : list GaiaUser          (* client.contacts.all() *)
}.
Record Subject := {
  subject_pk : Z;
  subject_gaia_user : GaiaUser;
  subject_parents : list GaiaUser          (* subject.parents.all() *)
}.
Record Job := { job_pk : Z; job_start_time : Z; job_end_time : Z }.
Record SubjectGroup := {
  subject_group_pk : Z;
  photos_available : bool;
  subject_group_start_time : Z;
  subject_group_end_time : Z;
  subject_group_client : Client
}.

Definition inst_gaia_user (g : GaiaUser) := Inst GaiaUserC (gaia_user_pk g).
Definition inst_session (s : Session) := Inst SessionC (session_pk s).
Definition inst_employee (e : Employee) := Inst EmployeeC (employee_pk e).
Definition inst_client (c : Client) := Inst ClientC (client_pk c).
Definition inst_subject (s : Subject) := Inst SubjectC (subject_pk s).
Definition inst_job (j : Job) := Inst JobC (job_pk j).
Definition inst_subject_group (g : SubjectGroup) :=
  Inst SubjectGroupC (subject_group_pk g).

(** ** Templates *)

Record NotificationTemplate := {
  template_name : string;
  template_path : string
}.

Record ContextualNotificationTemplate := {
  notification_template : option NotificationTemplate;
  html : option bool;
  context : list (string * string)   (* the JSON object, in item order *)
}.

(** ** NotificationSchedule: the fields the methods read or assign *)

Record NotificationSchedule := {
  name : string;
  active : bool;
  recurring : option bool;
  recurrence_delta : string;
  recurrence_delta_count : Z;
  trigger_type : string;
  start_trigger : option string;
  end_at : option Z;
  end_trigger : option string;
  last_sent_at : option Z;
  clients_persons : option bool;
  clients_schools : option bool;
  clients_commercial_others : option bool;
  subjects_booked : option bool;
  subjects_parents_booked : option bool;
  subjects_not_booked : option bool;
  subjects_parents_not_booked : option bool;
  employees : option bool;
  contextual_notification_template : option ContextualNotificationTemplate;
  slack_connector : option string;
  twilio_connector : option string;
  smtp_connector : option string
}.

Definition set_active (b : bool) (s : NotificationSchedule) :=
  {| name := name s; active := b; recurring := recurring s;
     recurrence_delta := recurrence_delta s;
     recurrence_delta_count := recurrence_delta_count s;
     trigger_type := trigger_type s; start_trigger := start_trigger s;
     end_at := end_at s; end_trigger := end_trigger s;
     last_sent_at := last_sent_at s;
     clients_persons := clients_persons s;
     clients_schools := clients_schools s;
     clients_commercial_others := clients_commercial_others s;
     subjects_booked := subjects_booked s;
     subjects_parents_booked := subjects_parents_booked s;
     subjects_not_booked := subjects_not_booked s;
     subjects_parents_not_booked := subjects_parents_not_booked s;
     employees := employees s;
     contextual_notification_template := contextual_notification_template s;
     slack_connector := slack_connector s;
     twilio_connector := twilio_connector s;
     smtp_connector := smtp_connector s |}.

Definition set_last_sent (t : option Z) (s : NotificationSchedule) :=
  {| name := name s; active := active s; recurring := recurring s;
     recurrence_delta := recurrence_delta s;
     recurrence_delta_count := recurrence_delta_count s;
     trigger_type := trigger_type s; start_trigger := start_trigger s;
     end_at := end_at s; end_trigger := end_trigger s;
     last_sent_at := t;
     clients_persons := clients_persons s;
     clients_schools := clients_schools s;
     clients_commercial_others := clients_commercial_others s;
     subjects_booked := subjects_booked s;
     subjects_parents_booked := subjects_parents_booked s;
     subjects_not_booked := subjects_not_booked s;
     subjects_parents_not_booked := subjects_parents_not_booked s;
     employees := employees s;
     contextual_notification_template := contextual_notification_template s;
     slack_connector := slack_connector s;
     twilio_connector := twilio_connector s;
     smtp_connector := smtp_connector s |}.

(** ** The world a method call runs in *)

(** A row update issued by [self.save(update_fields=[...])]. *)
Inductive db_write : Type :=
| SaveActive (b : bool)
| SaveLastSentAt (t : Z).

(** An email handed to the SMTP task: recipient, subject line, body. *)
Record email := { email_to : instance; email_subject : string; email_body : string }.

Record World := {
  self : NotificationSchedule;
  clock : Z;                        (* what [utils.get_local_now()] returns *)
  db : list db_write;               (* saves, oldest first *)
  outbox : list email               (* emails delivered, oldest first *)
}.

#[global] Instance NotificationTemplate_eq_dec : EqDecision NotificationTemplate.
Proof. solve_decision. Defined.
#[global] Instance ContextualNotificationTemplate_eq_dec :
  EqDecision ContextualNotificationTemplate.
Proof. solve_decision. Defined.
#[global] Instance NotificationSchedule_eq_dec : EqDecision NotificationSchedule.
Proof. solve_decision. Defined.
#[global] Instance db_write_eq_dec : EqDecision db_write.
Proof. solve_decision. Defined.
#[global] Instance email_eq_dec : EqDecision email.
Proof. solve_decision. Defined.
#[global] Instance World_eq_dec : EqDecision World.
Proof. solve_decision. Defined.

Definition M (A : Type) : Type := World -> result A * World.

#[global] Instance M_ret : MRet M := fun _ a w => (Ok a, w).
#[global] Instance M_bind : MBind M := fun _ _ f m w =>
  match m w with
  | (Ok a, w') => f a w'
  | (Raise e, w') => (Raise e, w')
  end.

Definition lift {A} (r : result A) : M A := fun w => (r, w).
Definition get_self : M NotificationSchedule := fun w => (Ok (self w), w).
Definition get_local_now : M Z := fun w => (Ok (clock w), w).

Definition assign_self (f : NotificationSchedule -> NotificationSchedule) : M unit :=
  fun w => (Ok tt, {| self := f (self w); clock := clock w; db := db w; outbox := outbox w |}).
Definition save (wr : db_write) : M unit :=
  fun w => (Ok tt, {| self := self w; clock := clock w; db := db w ++ [wr]; outbox := outbox w |}).
Definition deliver (e : email) : M unit :=
  fun w => (Ok tt, {| self := self w; clock := clock w; db := db w; outbox := outbox w ++ [e] |}).

Definition when (b : bool) (m : M unit) : M unit := if b then m else mret tt.

(** [for x in xs: acc = body(acc, x)] in [M]. *)
Fixpoint for_each_M {A B} (xs : list A) (body : B -> A -> M B) (acc : B) : M B :=
  match xs with
  | [] => mret acc
  | x :: xs' => acc' ← body acc x; for_each_M xs' body acc'
  end.

(** ** Trigger windows *)

(** [NotificationSchedule.within_recurring_notification_window].  [delta] is
    bound only under one of the five units; it is read only when
    [last_sent_at] is set. *)
Definition within_recurring_notification_window : M bool :=
  s ← get_self;
  instant ← get_local_now;
  delta ← lift (
    if bool_decide (recurrence_delta s = "seconds") then
      Some <$> timedelta (recurrence_delta_count s * us_per_second)
    else if bool_decide (recurrence_delta s = "minutes") then
      Some <$> timedelta (recurrence_delta_count s * us_per_minute)
    else if bool_decide (recurrence_delta s = "hours") then
      Some <$> timedelta (recurrence_delta_count s * us_per_hour)
    else if bool_decide (recurrence_delta s = "days") then
      Some <$> timedelta (recurrence_delta_count s * us_per_day)
    else if bool_decide (recurrence_delta s = "weeks") then
      Some <$> timedelta (recurrence_delta_count s * us_per_week)
    else Ok None);
  match last_sent_at s with
  | None => mret true
  | Some sent =>
      match delta with
      | None => lift (Raise UnboundLocalError)
      | Some d => mret (negb (instant - sent <? d))
      end
  end.

(** [self.end_at and instant > self.end_at] *)
Definition past_end_at (s : NotificationSchedule) (instant : Z) : bool :=
  match end_at s with
  | Some e => instant >? e
  | None => false
  end.

(** [self.active = False; self.save(update_fields=["active"])] *)
Definition deactivate : M unit :=
  assign_self (set_active false) ;; save (SaveActive false).

(** [NotificationSchedule.subject_group_within_notification_window] *)
Definition subject_group_within_notification_window
    (subject_group : SubjectGroup) : M bool :=
  s ← get_self;
  instant ← get_local_now;
  let after_start_trigger :=
    if eqs (start_trigger s) "After photos available"
       && photos_available subject_group then true
    else if eqs (start_trigger s) "After start date on subject group"
            && (instant >? subject_group_start_time subject_group) then true
    else if eqs (start_trigger s) "After end date on subject group"
            && (instant >? subject_group_end_time subject_group) then true
    else false in
  let '(after_end_trigger, within_notification_window) :=
    if after_start_trigger && past_end_at s instant then (true, false)
    else if after_start_trigger
            && eqs (end_trigger s) "End date on subject group"
            && (instant >? subject_group_end_time subject_group)
         then (true, false)
    else if after_start_trigger then (false, true)
    else (false, false) in
  within_notification_window ←
    (if within_notification_window && truthy (recurring s)
     then within_recurring_notification_window
     else mret within_notification_window);
  when (after_end_trigger
        || (negb (truthy (recurring s)) && within_notification_window
            && is_set (last_sent_at s)))
       deactivate ;;
  mret within_notification_window.

(** [NotificationSchedule.job_within_notification_window] *)
Definition job_within_notification_window (job : Job) : M bool :=
  s ← get_self;
  instant ← get_local_now;
  let after_start_trigger :=
    if eqs (start_trigger s) "Before job start"
       && (instant <? job_start_time job) then true
    else if eqs (start_trigger s) "After job end"
            && (instant >? job_end_time job) then true
    else if eqs (start_trigger s) "After job saved" then true
    else if eqs (start_trigger s) "After job location changed" then true
    else false in
  let '(after_end_trigger, within_notification_window) :=
    if after_start_trigger && past_end_at s instant then (true, false)
    else if after_start_trigger
            && eqs (end_trigger s) "Until job start"
            && (instant >? job_start_time job)
         then (true, false)
    else if after_start_trigger then (false, true)
    else (false, false) in
  within_notification_window ←
    (if after_end_trigger && truthy (recurring s)
     then within_recurring_notification_window
     else mret within_notification_window);
  when (after_end_trigger
        || (negb (truthy (recurring s)) && within_notification_window))
       deactivate ;;
  mret within_notification_window.

(** The two conditions the evaluators compute before they decide, as
    functions of the schedule, the root and the instant. *)
Definition job_started (s : NotificationSchedule) (job : Job) (instant : Z) : bool :=
  (eqs (start_trigger s) "Before job start" && (instant <? job_start_time job))
  || (eqs (start_trigger s) "After job end" && (instant >? job_end_time job))
  || eqs (start_trigger s) "After job saved"
  || eqs (start_trigger s) "After job location changed".

Definition job_ended (s : NotificationSchedule) (job : Job) (instant : Z) : bool :=
  past_end_at s instant
  || (eqs (end_trigger s) "Until job start" && (instant >? job_start_time job)).

Definition subject_group_started (s : NotificationSchedule) (g : SubjectGroup)
    (instant : Z) : bool :=
  (eqs (start_trigger s) "After photos available" && photos_available g)
  || (eqs (start_trigger s) "After start date on subject group"
      && (instant >? subject_group_start_time g))
  || (eqs (start_trigger s) "After end date on subject group"
      && (instant >? subject_group_end_time g)).

Definition subject_group_ended (s : NotificationSchedule) (g : SubjectGroup)
    (instant : Z) : bool :=
  past_end_at s instant
  || (eqs (end_trigger s) "End date on subject group"
      && (instant >? subject_group_end_time g)).

(** The cadence of a schedule, when its unit is one of the five choices. *)
Definition cadence (s : NotificationSchedule) : option Z :=
  if bool_decide (recurrence_delta s = "seconds") then
    Some (recurrence_delta_count s * us_per_second)
  else if bool_decide (recurrence_delta s = "minutes") then
    Some (recurrence_delta_count s * us_per_minute)
  else if bool_decide (recurrence_delta s = "hours") then
    Some (recurrence_delta_count s * us_per_hour)
  else if bool_decide (recurrence_delta s = "days") then
    Some (recurrence_delta_count s * us_per_day)
  else if bool_decide (recurrence_delta s = "weeks") then
    Some (recurrence_delta_count s * us_per_week)
  else None.

(** The field validators of [recurrence_delta_count]. *)
Definition count_valid (s : NotificationSchedule) : Prop :=
  1 <= recurrence_delta_count s <= 1000.

(** ** Audience: context dicts and their de-duplicated list *)

(** One element of [gaia_users_models]: a dict from slot name to instance. *)
Abbreviation bundle := (gmap string instance).

(** The dict [unique_gaia_users_models] builds from its arguments: the
    recipient always, every other slot only when its argument is given. *)
Definition context_dict (gaia_user : GaiaUser)
    (subject_group job session employee client : option instance) : bundle :=
  let gaia_user_models : bundle := {[ "gaia_user" := inst_gaia_user gaia_user ]} in
  let gaia_user_models :=
    match subject_group with
    | Some x => <[ "subject_group" := x ]> gaia_user_models
    | None => gaia_user_models
    end in
  let gaia_user_models :=
    match job with
    | Some x => <[ "job" := x ]> gaia_user_models
    | None => gaia_user_models
    end in
  let gaia_user_models :=
    match session with
    | Some x => <[ "session" := x ]> gaia_user_models
    | None => gaia_user_models
    end in
  let gaia_user_models :=
    match employee with
    | Some x => <[ "employee" := x ]> gaia_user_models
    | None => gaia_user_models
    end in
  match client with
  | Some x => <[ "client" := x ]> gaia_user_models
  | None => gaia_user_models
  end.

(** [NotificationSchedule.unique_gaia_users_models].  The keyword arguments
    come in the order of the signature.  With a [subject] the method
    subscripts the list [gaia_users_models] with the string ["subject"],
    which raises [TypeError]. *)
Definition unique_gaia_users_models
    (gaia_users_models : list bundle) (gaia_user : GaiaUser)
    (subject_group job session employee client subject : option instance)
  : result (list bundle) :=
  let gaia_user_models :=
    context_dict gaia_user subject_group job session employee client in
  match subject with
  | Some _ => Raise TypeError
  | None =>
      Ok (if bool_decide (gaia_user_models ∈ gaia_users_models)
          then gaia_users_models
          else gaia_users_models ++ [gaia_user_models])
  end.

(** The relations the audience builders walk.  [SubjectGroup] is a model of
    another app; the last four fields say what it answers when it is asked
    for the attributes of a [Job]. *)
Record ORM := {
  job_employees : Job -> list Employee;
  job_clients : Job -> list Client;
  job_subject_groups : Job -> list SubjectGroup;
  job_subjects_session : Job -> Subject -> option Session;
  subject_group_jobs : SubjectGroup -> list Job;
  subject_group_subjects : SubjectGroup -> list Subject;
  subject_group_employees : SubjectGroup -> result (list Employee);
  subject_group_clients : SubjectGroup -> result (list Client);
  subject_group_subject_groups : SubjectGroup -> result (list SubjectGroup);
  subject_group_subjects_session : SubjectGroup -> Subject -> result (option Session)
}.

(** The object bound to the parameter [job] of [job_gaia_users_models], seen
    through the attributes the method reads. *)
Record JobLike := {
  jl_instance : instance;
  jl_employees : result (list Employee);               (* job.employees.all() *)
  jl_clients : result (list Client);                   (* job.clients.all() *)
  jl_subject_groups : result (list SubjectGroup);      (* job.subject_groups.all() *)
  jl_subjects_session : Subject -> result (option Session)
}.

Definition job_as_job (orm : ORM) (j : Job) : JobLike :=
  {| jl_instance := inst_job j;
     jl_employees := Ok (job_employees orm j);
     jl_clients := Ok (job_clients orm j);
     jl_subject_groups := Ok (job_subject_groups orm j);
     jl_subjects_session := fun subject => Ok (job_subjects_session orm j subject) |}.

Definition subject_group_as_job (orm : ORM) (g : SubjectGroup) : JobLike :=
  {| jl_instance := inst_subject_group g;
     jl_employees := subject_group_employees orm g;
     jl_clients := subject_group_clients orm g;
     jl_subject_groups := subject_group_subject_groups orm g;
     jl_subjects_session := subject_group_subjects_session orm g |}.

Definition is_category (c : Client) (category : string) : bool :=
  bool_decide (client_category c = category).

Definition any_client_filter (s : NotificationSchedule) : bool :=
  truthy (clients_persons s) || truthy (clients_schools s)
  || truthy (clients_commercial_others s).

Definition any_subject_filter (s : NotificationSchedule) : bool :=
  truthy (subjects_booked s) || truthy (subjects_parents_booked s)
  || truthy (subjects_not_booked s) || truthy (subjects_parents_not_booked s).

(** [clients_schools and School, or clients_commercial_others and
    (Commercial or Other)] *)
Definition contacts_filter (s : NotificationSchedule) (c : Client) : bool :=
  (truthy (clients_schools s) && is_category c "School")
  || (truthy (clients_commercial_others s)
      && (is_category c "Commercial" || is_category c "Other")).

Section Audience.
Context (orm : ORM) (s : NotificationSchedule).

(** [NotificationSchedule.job_gaia_users_models] *)
Definition job_gaia_users_models (job : JobLike) : result (list bundle) :=
  let this := Some (jl_instance job) in
  let gaia_users_models : list bundle := [] in
  gaia_users_models ←
    (if truthy (employees s) then
       all ← jl_employees job;
       for_each all (fun acc employee =>
         unique_gaia_users_models acc (employee_gaia_user employee)
           None this None (Some (inst_employee employee)) None None)
         gaia_users_models
     else Ok gaia_users_models);
  gaia_users_models ←
    (if any_client_filter s then
       all ← jl_clients job;
       for_each all (fun acc client =>
         acc ←
           (if truthy (clients_persons s) && is_category client "Person" then
              unique_gaia_users_models acc (client_gaia_user client)
                None this None None None None
            else Ok acc);
         if contacts_filter s client then
           for_each (client_contacts client) (fun acc gaia_user =>
             unique_gaia_users_models acc gaia_user
               None this None None (Some (inst_client client)) None) acc
         else Ok acc)
         gaia_users_models
     else Ok gaia_users_models);
  if any_subject_filter s then
    all ← jl_subject_groups job;
    for_each all (fun acc subject_group =>
      let group := Some (inst_subject_group subject_group) in
      for_each (subject_group_subjects orm subject_group) (fun acc subject =>
        subjects_session ← jl_subjects_session job subject;
        let session := inst_session <$> subjects_session in
        let subj := Some (inst_subject subject) in
        acc ←
          (if is_set subjects_session
              && (truthy (subjects_booked s) || truthy (subjects_parents_booked s))
           then
             acc ←
               (if truthy (subjects_booked s) then
                  unique_gaia_users_models acc (subject_gaia_user subject)
                    group this session None None subj
                else Ok acc);
             if truthy (subjects_parents_booked s) then
               for_each (subject_parents subject) (fun acc gaia_user =>
                 unique_gaia_users_models acc gaia_user
                   group this session None None subj) acc
             else Ok acc
           else Ok acc);
        if negb (is_set subjects_session)
           && (truthy (subjects_not_booked s)
               || truthy (subjects_parents_not_booked s))
        then
          acc ←
            (if truthy (subjects_not_booked s) then
               unique_gaia_users_models acc (subject_gaia_user subject)
                 group this session None None subj
             else Ok acc);
          if truthy (subjects_parents_not_booked s) then
            for_each (subject_parents subject) (fun acc gaia_user =>
              unique_gaia_users_models acc gaia_user
                group this session None None subj) acc
          else Ok acc
        else Ok acc) acc)
      gaia_users_models
  else Ok gaia_users_models.

(** [NotificationSchedule.gaia_users_models_for_subject_group] *)
Definition gaia_users_models_for_subject_group (subject_group : SubjectGroup)
  : result (list bundle) :=
  let group := Some (inst_subject_group subject_group) in
  let own_client := subject_group_client subject_group in
  let gaia_users_models : list bundle := [] in
  gaia_users_models ←
    for_each (subject_group_jobs orm subject_group) (fun acc job =>
      let this := Some (inst_job job) in
      acc ←
        (if truthy (employees s) then
           for_each (job_employees orm job) (fun acc employee =>
             unique_gaia_users_models acc (employee_gaia_user employee)
               group this None (Some (inst_employee employee)) None None) acc
         else Ok acc);
      if any_client_filter s then
        for_each (job_clients orm job) (fun acc client =>
          acc ←
            (if truthy (clients_persons s) && is_category client "Person" then
               unique_gaia_users_models acc (client_gaia_user client)
                 group this None None (Some (inst_client client)) None
             else Ok acc);
          if contacts_filter s client then
            for_each (client_contacts client) (fun acc gaia_user =>
              unique_gaia_users_models acc gaia_user
                group this None None (Some (inst_client client)) None) acc
          else Ok acc) acc
      else Ok acc)
      gaia_users_models;
  gaia_users_models ←
    (if truthy (clients_persons s) && is_category own_client "Person" then
       unique_gaia_users_models gaia_users_models (client_gaia_user own_client)
         group None None None (Some (inst_client own_client)) None
     else Ok gaia_users_models);
  gaia_users_models ←
    (if contacts_filter s own_client then
       unique_gaia_users_models gaia_users_models (client_gaia_user own_client)
         group None None None (Some (inst_client own_client)) None
     else Ok gaia_users_models);
  if any_subject_filter s then
    for_each (subject_group_subjects orm subject_group) (fun acc subject =>
      let subj := Some (inst_subject subject) in
      if negb (nonempty (subject_group_jobs orm subject_group)) then
        acc ←
          (if truthy (subjects_not_booked s) then
             unique_gaia_users_models acc (subject_gaia_user subject)
               group None None None None None
           else Ok acc);
        if truthy (subjects_parents_not_booked s) then
          for_each (subject_parents subject) (fun acc gaia_user =>
            unique_gaia_users_models acc gaia_user
              group None None None None None) acc
        else Ok acc
      else
        for_each (subject_group_jobs orm subject_group) (fun acc job =>
          let this := Some (inst_job job) in
          let subjects_session := job_subjects_session orm job subject in
          let session := inst_session <$> subjects_session in
          acc ←
            (if is_set subjects_session
                && (truthy (subjects_booked s)
                    || truthy (subjects_parents_booked s))
             then
               acc ←
                 (if truthy (subjects_booked s) then
                    unique_gaia_users_models acc (subject_gaia_user subject)
                      group this session None None subj
                  else Ok acc);
               if truthy (subjects_parents_booked s) then
                 for_each (subject_parents subject) (fun acc gaia_user =>
                   unique_gaia_users_models acc gaia_user
                     group this session None None subj) acc
               else Ok acc
             else Ok acc);
          if negb (is_set subjects_session)
             && (truthy (subjects_not_booked s)
                 || truthy (subjects_parents_not_booked s))
          then
            acc ←
              (if truthy (subjects_not_booked s) then
                 unique_gaia_users_models acc (subject_gaia_user subject)
                   group this None None None subj
               else Ok acc);
            if truthy (subjects_parents_not_booked s) then
              for_each (subject_parents subject) (fun acc gaia_user =>
                unique_gaia_users_models acc gaia_user
                  group this None None None subj) acc
            else Ok acc
          else Ok acc) acc)
      gaia_users_models
  else Ok gaia_users_models.
End Audience.

(** ** Template context *)

(** [needle in hay] on [str]. *)
Fixpoint contains (needle hay : string) : bool :=
  match hay with
  | EmptyString => String.prefix needle EmptyString
  | String _ rest => String.prefix needle hay || contains needle rest
  end.

(** [s.split(sep)] for a one-character separator. *)
Fixpoint split (sep : ascii) (s : string) : list string :=
  match s with
  | EmptyString => [EmptyString]
  | String c rest =>
      if bool_decide (c = sep) then EmptyString :: split sep rest
      else match split sep rest with
           | piece :: pieces => String c piece :: pieces
           | [] => [String c EmptyString]
           end
  end.

(** A value a template context can hold. *)
Inductive value : Type :=
| VNone
| VStr (s : string)
| VInt (z : Z)
| VBool (b : bool)
| VInstance (i : instance).

#[global] Instance value_eq_dec : EqDecision value.
Proof. solve_decision. Defined.

(** The collaborators outside this module. *)
Record Env := {
  (* getattr(model, field) on a model instance *)
  getattr : instance -> string -> result value;
  (* django.template.loader.render_to_string(path, context) *)
  render_to_string : string -> gmap string value -> result string;
  (* send_email_contextual_template_notification_task: recipient,
     subject, html, message *)
  send_email_task : instance -> string -> option bool -> string -> result unit
}.

Section Context.
Context (env : Env).

(** The helper [get_model_field] of [dynamic_context]: the field name is
    cut out of the reference before the model is looked at. *)
Definition get_model_field (context_value : string) (model : option instance)
  : result value :=
  match split "." context_value !! 1%nat with
  | None => Raise IndexError
  | Some field =>
      match model with
      | Some m => getattr env m field
      | None => Ok VNone
      end
  end.

(** The body of the loop over [self.context.items()]. *)
Definition dynamic_context_item (gaia_user_models : bundle)
    (acc : gmap string value) (item : string * string)
  : result (gmap string value) :=
  let '(key, context_value) := item in
  let gaia_user := gaia_user_models !! "gaia_user" in
  let subject_group := gaia_user_models !! "subject_group" in
  let job := gaia_user_models !! "job" in
  let session := gaia_user_models !! "session" in
  let employee := gaia_user_models !! "employee" in
  let client := gaia_user_models !! "client" in
  let subject := gaia_user_models !! "subject" in
  if negb (contains "@" context_value) then
    Ok (<[ key := VStr context_value ]> acc)
  else if contains "GaiaUser" context_value then
    v ← get_model_field context_value gaia_user; Ok (<[ key := v ]> acc)
  else if contains "SubjectGroup" context_value then
    v ← get_model_field context_value subject_group; Ok (<[ key := v ]> acc)
  else if contains "Job" context_value then
    v ← get_model_field context_value job; Ok (<[ key := v ]> acc)
  else if contains "Session" context_value then
    v ← get_model_field context_value session; Ok (<[ key := v ]> acc)
  else if contains "Employee" context_value then
    v ← get_model_field context_value employee; Ok (<[ key := v ]> acc)
  else if contains "Client" context_value then
    v ← get_model_field context_value client; Ok (<[ key := v ]> acc)
  else if contains "Subject" context_value then
    v ← get_model_field context_value subject; Ok (<[ key := v ]> acc)
  else Ok acc.

(** [ContextualNotificationTemplate.dynamic_context] *)
Definition dynamic_context (template : ContextualNotificationTemplate)
    (gaia_user_models : option bundle) : result (gmap string value) :=
  let gaia_user_models : bundle :=
    match gaia_user_models with
    | Some d => d
    | None => ∅
    end in
  for_each (context template) (dynamic_context_item gaia_user_models) ∅.

(** [NotificationTemplate.render]; an empty context is replaced by a
    fresh empty dict. *)
Definition notification_template_render (t : NotificationTemplate)
    (ctx : gmap string value) : result string :=
  render_to_string env (template_path t) ctx.

(** [ContextualNotificationTemplate.render] *)
Definition render (template : ContextualNotificationTemplate)
    (gaia_user_models : option bundle) : result string :=
  ctx ← dynamic_context template gaia_user_models;
  match notification_template template with
  | Some t => notification_template_render t ctx
  | None => Raise AttributeError
  end.
End Context.

(** [d[key]] on the JSON object of a template. *)
Fixpoint subscript (d : list (string * string)) (key : string) : result string :=
  match d with
  | [] => Raise KeyError
  | (k, v) :: rest =>
      match subscript rest key with
      | Ok later => Ok later
      | Raise _ => if bool_decide (k = key) then Ok v else Raise KeyError
      end
  end.

(** ** Channels *)

(** The objects [send_sms_notifications] hands to the Twilio connector. *)
Inductive pyarg : Type :=
| ArgBundle (d : bundle)
| ArgTemplate (t : option ContextualNotificationTemplate)
| ArgSchedule (s : NotificationSchedule).

(** [x.phone_number]: no dict, template, [None] or schedule has the
    attribute. *)
Definition phone_number (x : pyarg) : result string :=
  match x with
  | ArgBundle _ | ArgTemplate _ | ArgSchedule _ => Raise AttributeError
  end.

(** [x.render_to_string()]: the template class defines [render] only. *)
Definition call_render_to_string (x : pyarg) : result string :=
  match x with
  | ArgBundle _ | ArgTemplate _ | ArgSchedule _ => Raise AttributeError
  end.

Section Dispatch.
Context (env : Env) (orm : ORM).

(** [SMTPConnector.send_contextual_template_notification] *)
Definition smtp_send_contextual_template_notification
    (gaia_users_models : bundle)
    (template : option ContextualNotificationTemplate) : M unit :=
  match template with
  | None => lift (Raise AttributeError)
  | Some t =>
      message ← lift (render env t (Some gaia_users_models));
      gaia_user ← lift (match gaia_users_models !! "gaia_user" with
                        | Some g => Ok g
                        | None => Raise KeyError
                        end);
      subject ← lift (subscript (context t) "email_subject");
      lift (send_email_task env gaia_user subject (html t) message) ;;
      deliver {| email_to := gaia_user; email_subject := subject;
                 email_body := message |}
  end.

(** [TwilioConnector.send_contextual_template_notification], with the
    parameters [twilio_client], [gaia_user] and
    [contextual_notification_template] in this order. *)
Definition twilio_send_contextual_template_notification
    (twilio_client gaia_user contextual_notification_template : pyarg)
  : M unit :=
  recipient ← lift (phone_number gaia_user);
  message ← lift (call_render_to_string contextual_notification_template);
  mret tt.

(** [NotificationSchedule.set_last_sent_at] *)
Definition set_last_sent_at : M unit :=
  now ← get_local_now;
  assign_self (set_last_sent (Some now)) ;;
  save (SaveLastSentAt now).

(** [NotificationSchedule.send_email_notifications] *)
Definition send_email_notifications (gaia_users_models : list bundle) : M unit :=
  sent ← for_each_M gaia_users_models (fun sent gaia_user_models =>
    s ← get_self;
    smtp_send_contextual_template_notification gaia_user_models
      (contextual_notification_template s) ;;
    mret (if sent : bool then sent else true)) false;
  when sent set_last_sent_at.

(** [NotificationSchedule.send_sms_notifications]: the connector is
    called with the dict, the template and the schedule. *)
Definition send_sms_notifications (gaia_users_models : list bundle) : M unit :=
  sent ← for_each_M gaia_users_models (fun sent gaia_user_models =>
    s ← get_self;
    twilio_send_contextual_template_notification
      (ArgBundle gaia_user_models)
      (ArgTemplate (contextual_notification_template s))
      (ArgSchedule s) ;;
    mret (if sent : bool then sent else true)) false;
  when sent set_last_sent_at.

(** [NotificationSchedule.send_slack_notifications] *)
Definition send_slack_notifications (gaia_users_models : list bundle) : M unit :=
  mret tt.

(** [NotificationSchedule.send_notifications] *)
Definition send_notifications (gaia_users_models : list bundle) : M unit :=
  s ← get_self;
  when (is_set (smtp_connector s)) (send_email_notifications gaia_users_models) ;;
  s ← get_self;
  when (is_set (twilio_connector s)) (send_sms_notifications gaia_users_models) ;;
  s ← get_self;
  when (is_set (slack_connector s)) (send_slack_notifications gaia_users_models).

(** The audience [run_notification_schedule] computes before it sends:
    both roots go through [job_gaia_users_models]. *)
Definition resolve_audience (job : option Job)
    (subject_group : option SubjectGroup) : M (option (list bundle)) :=
  let gaia_users_models : option (list bundle) := None in
  gaia_users_models ←
    match job with
    | Some j =>
        within_notification_window ← job_within_notification_window j;
        if within_notification_window : bool then
          s ← get_self;
          lift (Some <$> job_gaia_users_models orm s (job_as_job orm j))
        else mret gaia_users_models
    | None => mret gaia_users_models
    end;
  match subject_group with
  | Some g =>
      within_notification_window ← subject_group_within_notification_window g;
      if within_notification_window : bool then
        s ← get_self;
        lift (Some <$> job_gaia_users_models orm s (subject_group_as_job orm g))
      else mret gaia_users_models
  | None => mret gaia_users_models
  end.

(** [NotificationSchedule.run_notification_schedule] *)
Definition run_notification_schedule (job : option Job)
    (subject_group : option SubjectGroup) : M unit :=
  gaia_users_models ← resolve_audience job subject_group;
  match gaia_users_models with
  | Some (d :: rest) => send_notifications (d :: rest)
  | _ => mret tt
  end.
End Dispatch.

(** ** [SMTPConnector.send_email] *)

(** [s.split(sep, 1)]: at most one cut, at the first separator. *)
Fixpoint split_once (sep : ascii) (s : string) : list string :=
  match s with
  | EmptyString => [EmptyString]
  | String c rest =>
      if bool_decide (c = sep) then [EmptyString; rest]
      else match split_once sep rest with
           | piece :: pieces => String c piece :: pieces
           | [] => [String c EmptyString]
           end
  end.

(** A part attached to the multipart message. *)
Inductive mime_part : Type :=
| MIMEText (subtype body : string)
| MIMEImage                      (* what [logo_img()] returns *)
| MIMEBase (maintype subtype payload filename : string).

(** The message as it is handed to [sendmail]. *)
Record mime_message := {
  msg_subject : string;
  msg_to : string;
  msg_from : option string;
  msg_parts : list mime_part;
  content_subtype : option string;
  mixed_subtype : option string
}.

#[global] Instance mime_part_eq_dec : EqDecision mime_part.
Proof. solve_decision. Defined.
#[global] Instance mime_message_eq_dec : EqDecision mime_message.
Proof. solve_decision. Defined.

(** What [send_email] reaches outside the connector, the SMTP client
    apart. *)
Record Mailer := {
  (* render_to_string(template, context) *)
  render_template : option string -> gmap string value -> result string;
  (* SMTPConnector.logo_img() *)
  logo_img : result mime_part;
  (* mimetypes.guess_type(path)[0] *)
  guess_type : string -> option string;
  (* open(path, "rb"): the bytes its read() returns, or what open raises *)
  open_file : string -> result string
}.

(** The body of the loop over [attachments]: the part built for one path. *)
Definition attachment_part (mailer : Mailer) (attachement : string)
  : result mime_part :=
  mimetype ← match guess_type mailer attachement with
             | Some mimetype => Ok (split_once "/" mimetype)
             | None => Raise AttributeError
             end;
  payload ← open_file mailer attachement;
  maintype ← match mimetype !! 0%nat with
             | Some x => Ok x
             | None => Raise IndexError
             end;
  subtype ← match mimetype !! 1%nat with
            | Some x => Ok x
            | None => Raise IndexError
            end;
  Ok (MIMEBase maintype subtype payload
        (List.last (split "/" attachement) EmptyString)).

(** [SMTPConnector.send_email]; [user] is [self.user], the result is the
    message that was sent.  Whatever [sendmail] raises is raised as
    [EmailException]. *)
Definition send_email (mailer : Mailer) (user : option string)
    (smtp_client : mime_message -> result unit)
    (recipient subject : string) (html : bool) (message : option string)
    (template : option string) (context : option (gmap string value))
    (attachments : option (list string)) : result mime_message :=
  let context : gmap string value :=
    match context with
    | Some c => c
    | None => ∅
    end in
  message ← match message with
            | Some (String c rest) => Ok (String c rest)
            | Some EmptyString | None => render_template mailer template context
            end;
  parts ← (if html then
             logo ← logo_img mailer;
             Ok [MIMEText "html" message; logo]
           else Ok [MIMEText "plain" message]);
  parts ← match attachments with
          | Some (a :: rest) =>
              for_each (a :: rest) (fun parts attachement =>
                attachment ← attachment_part mailer attachement;
                Ok (parts ++ [attachment])) parts
          | Some [] | None => Ok parts
          end;
  let email :=
    {| msg_subject := String.append subject (String "010"%char EmptyString);
       msg_to := recipient;
       msg_from := user;
       msg_parts := parts;
       content_subtype := if html then Some "html" else None;
       mixed_subtype := if html then Some "related" else None |} in
  match smtp_client email with
  | Ok _ => Ok email
  | Raise _ => Raise EmailException
  end.

(** ** [Notification.__str__] *)

(** The connectors of a notification; a deleted connector leaves [None]
    behind ([on_delete=SET_NULL]). *)
Record Notification := {
  notification_smtp_connector : option string;
  notification_twilio_connector : option string;
  notification_slack_connector : option string
}.

(** [Notification.__str__]; [gaia_user] is [str(self.gaia_user)].  The
    local [notification_type] is bound under one of the three connectors
    only. *)
Definition notification_str (n : Notification) (gaia_user : string)
  : result string :=
  notification_type ←
    (if is_set (notification_smtp_connector n) then Ok "Email"%string
     else if is_set (notification_twilio_connector n) then Ok "SMS"%string
     else if is_set (notification_slack_connector n) then Ok "Slack"%string
     else Raise UnboundLocalError);
  Ok (String.append notification_type
        (String.append " notification to " gaia_user)).

(** * Vocabulary of the statements *)

(** The world after [deactivate]. *)
Definition deactivated (w : World) : World :=
  {| self := set_active false (self w); clock := clock w;
     db := db w ++ [SaveActive false]; outbox := outbox w |}.

(** The world after [set_last_sent_at]. *)
Definition stamped (w : World) : World :=
  {| self := set_last_sent (Some (clock w)) (self w); clock := clock w;
     db := db w ++ [SaveLastSentAt (clock w)]; outbox := outbox w |}.

(** The same world at another instant. *)
Definition at_instant (now : Z) (w : World) : World :=
  {| self := self w; clock := now; db := db w; outbox := outbox w |}.

(** The duration of the schedule's cadence fits a [timedelta]. *)
Definition cadence_representable (s : NotificationSchedule) : Prop :=
  match cadence s with
  | Some d => Z.abs (d / us_per_day) <= 999999999
  | None => True
  end.

(** What the recurrence check answers, as a function of the schedule and
    the instant. *)
Definition spacing (s : NotificationSchedule) (instant : Z) : result bool :=
  match cadence s with
  | Some d =>
      if Z.abs (d / us_per_day) >? 999999999 then Raise OverflowError
      else match last_sent_at s with
           | Some sent => Ok (negb (instant - sent <? d))
           | None => Ok true
           end
  | None =>
      match last_sent_at s with
      | Some _ => Raise UnboundLocalError
      | None => Ok true
      end
  end.

(** The decision of [job_within_notification_window] by cases on the
    start and end conditions. *)
Definition job_decision (w : World) (job : Job) : result bool * World :=
  let s := self w in
  if job_started s job (clock w) then
    if job_ended s job (clock w) then
      if truthy (recurring s) then
        match spacing s (clock w) with
        | Ok b => (Ok b, deactivated w)
        | Raise e => (Raise e, w)
        end
      else (Ok false, deactivated w)
    else (Ok true, if truthy (recurring s) then w else deactivated w)
  else (Ok false, w).

(** The decision of [subject_group_within_notification_window] by cases. *)
Definition subject_group_decision (w : World) (g : SubjectGroup)
  : result bool * World :=
  let s := self w in
  if subject_group_started s g (clock w) then
    if subject_group_ended s g (clock w) then (Ok false, deactivated w)
    else if truthy (recurring s) then (spacing s (clock w), w)
    else (Ok true, if is_set (last_sent_at s) then deactivated w else w)
  else (Ok false, w).

(** The fields of a schedule the window evaluators read, apart from
    [last_sent_at]; the engine assigns none of them. *)
Definition same_window_configuration (s s' : NotificationSchedule) : Prop :=
  start_trigger s' = start_trigger s
  /\ end_trigger s' = end_trigger s
  /\ end_at s' = end_at s
  /\ recurring s' = recurring s.

(** ** Concrete schedules and roots *)

Definition day : Z := us_per_day.

Definition schedule0 : NotificationSchedule :=
  {| name := "reminder"; active := true; recurring := Some false;
     recurrence_delta := "days"; recurrence_delta_count := 2;
     trigger_type := "job"; start_trigger := Some "After job saved";
     end_at := None; end_trigger := None; last_sent_at := None;
     clients_persons := None; clients_schools := None;
     clients_commercial_others := None; subjects_booked := None;
     subjects_parents_booked := None; subjects_not_booked := None;
     subjects_parents_not_booked := None; employees := None;
     contextual_notification_template := None;
     slack_connector := None; twilio_connector := None;
     smtp_connector := None |}.

Definition with_recurring (b : option bool) (s : NotificationSchedule) :=
  {| name := name s; active := active s; recurring := b;
     recurrence_delta := recurrence_delta s;
     recurrence_delta_count := recurrence_delta_count s;
     trigger_type := trigger_type s; start_trigger := start_trigger s;
     end_at := end_at s; end_trigger := end_trigger s;
     last_sent_at := last_sent_at s;
     clients_persons := clients_persons s;
     clients_schools := clients_schools s;
     clients_commercial_others := clients_commercial_others s;
     subjects_booked := subjects_booked s;
     subjects_parents_booked := subjects_parents_booked s;
     subjects_not_booked := subjects_not_booked s;
     subjects_parents_not_booked := subjects_parents_not_booked s;
     employees := employees s;
     contextual_notification_template := contextual_notification_template s;
     slack_connector := slack_connector s;
     twilio_connector := twilio_connector s;
     smtp_connector := smtp_connector s |}.

Definition with_triggers (trigger : string) (start until : option string)
    (until_at : option Z) (s : NotificationSchedule) :=
  {| name := name s; active := active s; recurring := recurring s;
     recurrence_delta := recurrence_delta s;
     recurrence_delta_count := recurrence_delta_count s;
     trigger_type := trigger; start_trigger := start;
     end_at := until_at; end_trigger := until;
     last_sent_at := last_sent_at s;
     clients_persons := clients_persons s;
     clients_schools := clients_schools s;
     clients_commercial_others := clients_commercial_others s;
     subjects_booked := subjects_booked s;
     subjects_parents_booked := subjects_parents_booked s;
     subjects_not_booked := subjects_not_booked s;
     subjects_parents_not_booked := subjects_parents_not_booked s;
     employees := employees s;
     contextual_notification_template := contextual_notification_template s;
     slack_connector := slack_connector s;
     twilio_connector := twilio_connector s;
     smtp_connector := smtp_connector s |}.

(** A job schedule that fires after the job is saved, and a subject-group
    schedule that fires once photos are available. *)
Definition job_schedule : NotificationSchedule := schedule0.
Definition group_schedule : NotificationSchedule :=
  with_triggers "subject group" (Some "After photos available") None None schedule0.

Definition world_of (s : NotificationSchedule) (now : Z) : World :=
  {| self := s; clock := now; db := []; outbox := [] |}.

Definition alice : GaiaUser := {| gaia_user_pk := 1 |}.
Definition bob : GaiaUser := {| gaia_user_pk := 2 |}.
Definition carol : GaiaUser := {| gaia_user_pk := 3 |}.

Definition client0 : Client :=
  {| client_pk := 30; client_category := "Person";
     client_gaia_user := carol; client_contacts := [] |}.

Definition job0 : Job :=
  {| job_pk := 10; job_start_time := 100 * day; job_end_time := 101 * day |}.

Definition group0 : SubjectGroup :=
  {| subject_group_pk := 20; photos_available := true;
     subject_group_start_time := 90 * day; subject_group_end_time := 120 * day;
     subject_group_client := client0 |}.

(** A recurring schedule with a cadence of two days, last sent at day 10. *)
Definition recurring_job_schedule : NotificationSchedule :=
  set_last_sent (Some (10 * day)) (with_recurring (Some true) job_schedule).
Definition recurring_group_schedule : NotificationSchedule :=
  set_last_sent (Some (10 * day)) (with_recurring (Some true) group_schedule).

(** One-shot schedules with an explicit end at day 3. *)
Definition ended_job_schedule : NotificationSchedule :=
  with_triggers "job" (Some "After job saved") None (Some (3 * day)) schedule0.
Definition ended_group_schedule : NotificationSchedule :=
  with_triggers "subject group" (Some "After photos available") None
    (Some (3 * day)) schedule0.

(** The call returns, it does not raise. *)
Definition returns {A} (r : result A) : Prop := exists a, r = Ok a.

(** Relations around [job0]: two employees, two person clients that share
    one recipient, and a subject group with one subject who has a booked
    session.  A second subject group has a subject and no job.
    [SubjectGroup] answers [AttributeError] for the attributes of a job. *)
Definition employee_a : Employee := {| employee_pk := 50; employee_gaia_user := alice |}.
Definition employee_b : Employee := {| employee_pk := 51; employee_gaia_user := bob |}.
Definition client1 : Client :=
  {| client_pk := 31; client_category := "Person";
     client_gaia_user := carol; client_contacts := [] |}.
Definition dave : GaiaUser := {| gaia_user_pk := 4 |}.
Definition subject0 : Subject :=
  {| subject_pk := 40; subject_gaia_user := dave; subject_parents := [alice] |}.
Definition session0 : Session := {| session_pk := 60 |}.
Definition group1 : SubjectGroup :=
  {| subject_group_pk := 21; photos_available := true;
     subject_group_start_time := 90 * day; subject_group_end_time := 120 * day;
     subject_group_client := client0 |}.

Definition orm0 : ORM :=
  {| job_employees := fun _ => [employee_a; employee_b];
     job_clients := fun _ => [client0; client1];
     job_subject_groups := fun _ => [group0];
     job_subjects_session := fun _ _ => Some session0;
     subject_group_jobs := fun g =>
       if bool_decide (subject_group_pk g = 20) then [job0] else [];
     subject_group_subjects := fun _ => [subject0];
     subject_group_employees := fun _ => Raise AttributeError;
     subject_group_clients := fun _ => Raise AttributeError;
     subject_group_subject_groups := fun _ => Raise AttributeError;
     subject_group_subjects_session := fun _ _ => Raise AttributeError |}.

Definition with_filters
    (staff persons schools others booked parents_booked not_booked
       parents_not_booked : option bool) (s : NotificationSchedule) :=
  {| name := name s; active := active s; recurring := recurring s;
     recurrence_delta := recurrence_delta s;
     recurrence_delta_count := recurrence_delta_count s;
     trigger_type := trigger_type s; start_trigger := start_trigger s;
     end_at := end_at s; end_trigger := end_trigger s;
     last_sent_at := last_sent_at s;
     clients_persons := persons;
     clients_schools := schools;
     clients_commercial_others := others;
     subjects_booked := booked;
     subjects_parents_booked := parents_booked;
     subjects_not_booked := not_booked;
     subjects_parents_not_booked := parents_not_booked;
     employees := staff;
     contextual_notification_template := contextual_notification_template s;
     slack_connector := slack_connector s;
     twilio_connector := twilio_connector s;
     smtp_connector := smtp_connector s |}.

(** Job schedules: staff and person clients; booked subjects. *)
Definition staff_and_persons_schedule : NotificationSchedule :=
  with_filters (Some true) (Some true) None None None None None None job_schedule.
Definition booked_schedule : NotificationSchedule :=
  with_filters None None None None (Some true) None None None job_schedule.

(** No two positions of the list hold dicts that agree at every slot. *)
Definition distinct_bundles (l : list bundle) : Prop :=
  forall (i j : nat) (b b' : bundle),
    l !! i = Some b -> l !! j = Some b' ->
    (forall slot : string, b !! slot = b' !! slot) -> i = j.

(** A subject-group schedule for person clients. *)
Definition persons_group_schedule : NotificationSchedule :=
  with_filters None (Some true) None None None None None None group_schedule.

(** The collaborators of the examples: every field reads as a string, the
    renderer returns the body ["hello"], and the mail task fails for the
    recipient with primary key 2. *)
Definition env0 : Env :=
  {| getattr := fun _ field => Ok (VStr field);
     render_to_string := fun _ _ => Ok "hello";
     send_email_task := fun recipient _ _ _ =>
       if bool_decide (inst_pk recipient = 2) then Raise EmailException
       else Ok tt |}.

(** The slot of the context dict a field reference is resolved against:
    the first entity name, in the order of the [elif] chain, that occurs in
    the reference.  [None] for a literal and for a reference that names none
    of the seven kinds. *)
Definition slot_of (context_value : string) : option string :=
  if negb (contains "@" context_value) then None
  else if contains "GaiaUser" context_value then Some "gaia_user"
  else if contains "SubjectGroup" context_value then Some "subject_group"
  else if contains "Job" context_value then Some "job"
  else if contains "Session" context_value then Some "session"
  else if contains "Employee" context_value then Some "employee"
  else if contains "Client" context_value then Some "client"
  else if contains "Subject" context_value then Some "subject"
  else None.

(** A reference with the entity marker that names none of the seven kinds. *)
Definition unknown_kind (context_value : string) : Prop :=
  contains "@" context_value = true /\ slot_of context_value = None.

(** A dict for an employee of [job0]: it has no session slot. *)
Definition staff_dict : bundle :=
  {[ "gaia_user" := inst_gaia_user alice; "job" := inst_job job0;
     "employee" := inst_employee employee_a ]}.

Definition template0 : ContextualNotificationTemplate :=
  {| notification_template :=
       Some {| template_name := "reminder"; template_path := "reminder.html" |};
     html := Some true;
     context := [ ("email_subject", "Your photos");
                  ("first_name", "@GaiaUser.first_name");
                  ("session_time", "@Session.start_time");
                  ("venue", "@Venue.name") ] |}.

(** The email the SMTP connector hands over for one dict, or the exception
    on the way to it: rendering, the recipient, the subject line, the task. *)
Definition email_for (env : Env) (t : ContextualNotificationTemplate)
    (d : bundle) : result email :=
  message ← render env t (Some d);
  gaia_user ← match d !! "gaia_user" with
              | Some g => Ok g
              | None => Raise KeyError
              end;
  subject ← subscript (context t) "email_subject";
  send_email_task env gaia_user subject (html t) message ;;
  Ok {| email_to := gaia_user; email_subject := subject; email_body := message |}.

(** The world with more emails delivered. *)
Definition delivered (emails : list email) (w : World) : World :=
  {| self := self w; clock := clock w; db := db w;
     outbox := outbox w ++ emails |}.

Definition with_channels (t : option ContextualNotificationTemplate)
    (smtp twilio slack : option string) (s : NotificationSchedule) :=
  {| name := name s; active := active s; recurring := recurring s;
     recurrence_delta := recurrence_delta s;
     recurrence_delta_count := recurrence_delta_count s;
     trigger_type := trigger_type s; start_trigger := start_trigger s;
     end_at := end_at s; end_trigger := end_trigger s;
     last_sent_at := last_sent_at s;
     clients_persons := clients_persons s;
     clients_schools := clients_schools s;
     clients_commercial_others := clients_commercial_others s;
     subjects_booked := subjects_booked s;
     subjects_parents_booked := subjects_parents_booked s;
     subjects_not_booked := subjects_not_booked s;
     subjects_parents_not_booked := subjects_parents_not_booked s;
     employees := employees s;
     contextual_notification_template := t;
     slack_connector := slack;
     twilio_connector := twilio;
     smtp_connector := smtp |}.

(** A schedule with the email and the SMS channel, and one with the email
    channel only. *)
Definition two_channel_schedule : NotificationSchedule :=
  with_channels (Some template0) (Some "smtp") (Some "twilio") None
    staff_and_persons_schedule.
Definition email_schedule : NotificationSchedule :=
  with_channels (Some template0) (Some "smtp") None None
    staff_and_persons_schedule.

(** Dicts for alice, bob and carol; [env0] fails the mail to bob. *)
Definition dict_alice : bundle := staff_dict.
Definition dict_bob : bundle :=
  {[ "gaia_user" := inst_gaia_user bob; "job" := inst_job job0;
     "employee" := inst_employee employee_b ]}.
Definition dict_carol : bundle :=
  {[ "gaia_user" := inst_gaia_user carol; "job" := inst_job job0 ]}.

Definition mail (g : GaiaUser) : email :=
  {| email_to := inst_gaia_user g; email_subject := "Your photos";
     email_body := "hello" |}.

(** Collaborators whose mail task always succeeds, and a one-shot job
    schedule for the staff of the job with the email channel. *)
Definition env_ok : Env :=
  {| getattr := getattr env0;
     render_to_string := render_to_string env0;
     send_email_task := fun _ _ _ _ => Ok tt |}.

Definition staff_email_schedule : NotificationSchedule :=
  with_channels (Some template0) (Some "smtp") None None
    (with_filters (Some true) None None None None None None None job_schedule).

(** A subject-group schedule for subjects that are not booked. *)
Definition not_booked_group_schedule : NotificationSchedule :=
  with_filters None None None None None None (Some true) None group_schedule.

(** ** More schedules and roots *)

(** A job schedule that fires before the job starts, one that runs until
    the job starts, and their recurring variants last sent at day 10. *)
Definition before_start_schedule : NotificationSchedule :=
  with_triggers "job" (Some "Before job start") None None schedule0.
Definition until_start_schedule : NotificationSchedule :=
  with_triggers "job" (Some "After job saved") (Some "Until job start") None
    schedule0.

(** A subject group whose photos are not available yet. *)
Definition group_without_photos : SubjectGroup :=
  {| subject_group_pk := 22; photos_available := false;
     subject_group_start_time := 90 * day; subject_group_end_time := 120 * day;
     subject_group_client := client0 |}.

Definition with_cadence (unit : string) (count : Z) (s : NotificationSchedule) :=
  {| name := name s; active := active s; recurring := recurring s;
     recurrence_delta := unit;
     recurrence_delta_count := count;
     trigger_type := trigger_type s; start_trigger := start_trigger s;
     end_at := end_at s; end_trigger := end_trigger s;
     last_sent_at := last_sent_at s;
     clients_persons := clients_persons s;
     clients_schools := clients_schools s;
     clients_commercial_others := clients_commercial_others s;
     subjects_booked := subjects_booked s;
     subjects_parents_booked := subjects_parents_booked s;
     subjects_not_booked := subjects_not_booked s;
     subjects_parents_not_booked := subjects_parents_not_booked s;
     employees := employees s;
     contextual_notification_template := contextual_notification_template s;
     slack_connector := slack_connector s;
     twilio_connector := twilio_connector s;
     smtp_connector := smtp_connector s |}.

(** The five choices of [recurrence_delta]. *)
Definition recurrence_units : list string :=
  ["seconds"; "minutes"; "hours"; "days"; "weeks"].

(** Two schedules that differ at most in [active] and [last_sent_at]. *)
Definition same_settings (s s' : NotificationSchedule) : Prop :=
  set_active true (set_last_sent None s') = set_active true (set_last_sent None s).

(** What a call may do to the world: the settings of the schedule and the
    clock stay, [active] stays or becomes false, [last_sent_at] stays or
    becomes the current instant, saves and mails are only added. *)
Definition evolves (w w' : World) : Prop :=
  same_settings (self w) (self w')
  /\ clock w' = clock w
  /\ (active (self w') = active (self w) \/ active (self w') = false)
  /\ (last_sent_at (self w') = last_sent_at (self w)
      \/ last_sent_at (self w') = Some (clock w))
  /\ db w `prefix_of` db w'
  /\ outbox w `prefix_of` outbox w'.

(** Every run of the computation evolves the world. *)
Definition keeps {A} (m : M A) : Prop := forall w, evolves w (snd (m w)).

(** A recurring subject-group schedule with a unit outside the choices, and
    one with a count of a thousand million days. *)
Definition fortnightly_group_schedule : NotificationSchedule :=
  with_cadence "fortnights" 1 recurring_group_schedule.
Definition oversized_group_schedule : NotificationSchedule :=
  with_cadence "days" 1000000000 (with_recurring (Some true) group_schedule).

(** A schedule with every audience filter unset. *)
Definition no_filter (s : NotificationSchedule) : Prop :=
  truthy (employees s) = false
  /\ any_client_filter s = false
  /\ any_subject_filter s = false.

(** The slots every dict of an audience has: a recipient under
    ["gaia_user"], nothing under ["subject"]. *)
Definition well_formed_dict (b : bundle) : Prop :=
  (exists g : GaiaUser, b !! "gaia_user" = Some (inst_gaia_user g))
  /\ b !! "subject" = None.

(** Schedules with the SMS channel only and with the Slack channel only. *)
Definition sms_schedule : NotificationSchedule :=
  with_channels (Some template0) None (Some "twilio") None
    staff_and_persons_schedule.
Definition slack_schedule : NotificationSchedule :=
  with_channels (Some template0) None None (Some "slack")
    staff_and_persons_schedule.

(** A one-shot job schedule for booked subjects with the email channel. *)
Definition booked_email_schedule : NotificationSchedule :=
  with_channels (Some template0) (Some "smtp") None None booked_schedule.

(** The parts [send_email] has attached when it reaches [sendmail]. *)
Definition email_parts (mailer : Mailer) (html : bool) (message : option string)
    (template : option string) (context : option (gmap string value))
    (attachments : option (list string)) : result (list mime_part) :=
  let context : gmap string value :=
    match context with
    | Some c => c
    | None => ∅
    end in
  message ← match message with
            | Some (String c rest) => Ok (String c rest)
            | Some EmptyString | None => render_template mailer template context
            end;
  parts ← (if html then
             logo ← logo_img mailer;
             Ok [MIMEText "html" message; logo]
           else Ok [MIMEText "plain" message]);
  match attachments with
  | Some (a :: rest) =>
      for_each (a :: rest) (fun parts attachement =>
        attachment ← attachment_part mailer attachement;
        Ok (parts ++ [attachment])) parts
  | Some [] | None => Ok parts
  end.

(** A mailer that knows PDF and PNG files, and an SMTP client that accepts
    everything. *)
Definition mailer0 : Mailer :=
  {| render_template := fun _ _ => Ok "rendered";
     logo_img := Ok MIMEImage;
     guess_type := fun path =>
       if contains ".pdf" path then Some "application/pdf"
       else if contains ".png" path then Some "image/png"
       else None;
     open_file := fun _ => Ok "bytes" |}.

Definition accepting_client : mime_message -> result unit := fun _ => Ok tt.

(** A template without a subject line, and one whose subject line is a
    field reference. *)
Definition template_without_subject : ContextualNotificationTemplate :=
  {| notification_template := notification_template template0;
     html := Some true;
     context := [ ("first_name", "@GaiaUser.first_name") ] |}.
Definition template_with_reference_subject : ContextualNotificationTemplate :=
  {| notification_template := notification_template template0;
     html := Some true;
     context := [ ("email_subject", "@Job.name") ] |}.

(** * Properties *)

(** ** Trigger windows *)

Lemma count_valid_representable s : count_valid s -> cadence_representable s.
Proof.
  unfold count_valid, cadence_representable, cadence. intros Hc.
  repeat case_bool_decide; try exact I;
    (apply Z.abs_le; split;
     [ apply Z.le_trans with 0; [lia|]; apply Z.div_pos; [|reflexivity];
       unfold us_per_week, us_per_day, us_per_hour, us_per_minute, us_per_second; lia
     | apply Z.lt_succ_r; apply Z.div_lt_upper_bound; [reflexivity|];
       unfold us_per_week, us_per_day, us_per_hour, us_per_minute, us_per_second; lia ]).
Qed.

(** The recurrence check leaves the world as it found it. *)
Lemma within_recurring_notification_window_spec w :
  within_recurring_notification_window w = (spacing (self w) (clock w), w).
Proof.
  unfold within_recurring_notification_window, spacing, cadence, timedelta.
  unfold mbind, M_bind, get_self, get_local_now, lift, mret, M_ret, fmap, result_fmap.
  repeat case_bool_decide; simpl;
    repeat match goal with
           | |- context [if ?b then _ else _] => destruct b; simpl
           end;
    destruct (last_sent_at (self w)); reflexivity.
Qed.

Ltac run_M :=
  unfold mbind, M_bind, mret, M_ret, get_self, get_local_now, lift, when,
    deactivate, assign_self, save; simpl.

Ltac split_bools :=
  repeat match goal with
         | |- context [eqs ?a ?b] => destruct (eqs a b); simpl
         | |- context [?a <? ?b] => destruct (a <? b); simpl
         | |- context [?a >? ?b] => destruct (a >? b); simpl
         | |- context [past_end_at ?a ?b] => destruct (past_end_at a b); simpl
         | |- context [truthy ?a] => destruct (truthy a); simpl
         | |- context [photos_available ?a] => destruct (photos_available a); simpl
         end.

Lemma job_within_notification_window_spec job w :
  job_within_notification_window job w = job_decision w job.
Proof.
  unfold job_within_notification_window, job_decision, job_started, job_ended.
  run_M. split_bools; rewrite ?within_recurring_notification_window_spec;
    try reflexivity;
    destruct (spacing (self w) (clock w)); reflexivity.
Qed.

Lemma subject_group_within_notification_window_spec g w :
  subject_group_within_notification_window g w = subject_group_decision w g.
Proof.
  unfold subject_group_within_notification_window, subject_group_decision,
    subject_group_started, subject_group_ended.
  run_M. split_bools; rewrite ?within_recurring_notification_window_spec;
    try reflexivity;
    try (destruct (spacing (self w) (clock w)); reflexivity);
    destruct (last_sent_at (self w)); reflexivity.
Qed.

Lemma deactivated_neq w : deactivated w <> w.
Proof.
  intros H. apply (f_equal (fun x => length (db x))) in H.
  simpl in H. rewrite length_app in H. simpl in H. lia.
Qed.

Lemma spacing_unset s instant :
  last_sent_at s = None -> cadence_representable s -> spacing s instant = Ok true.
Proof.
  unfold spacing, cadence_representable. intros -> Hrep.
  destruct (cadence s) as [d|]; [|reflexivity].
  destruct (Z.gtb_spec (Z.abs (d / us_per_day)) 999999999); [lia|reflexivity].
Qed.

Lemma spacing_set s instant sent d :
  last_sent_at s = Some sent -> cadence s = Some d -> cadence_representable s ->
  spacing s instant = Ok (negb (instant - sent <? d)).
Proof.
  unfold spacing, cadence_representable. intros -> -> Hrep.
  destruct (Z.gtb_spec (Z.abs (d / us_per_day)) 999999999); [lia|reflexivity].
Qed.

(** C10, as stated, fails: a recurring schedule that was never sent, with
    the unit days and a count of a thousand million, makes the recurrence
    check raise [OverflowError]; the duration is built before [last_sent_at]
    is looked at. *)
Lemma first_send_oversized_count_counterexample :
  let w := world_of oversized_group_schedule (5 * day) in
  truthy (recurring (self w)) = true
  /\ last_sent_at (self w) = None
  /\ recurrence_delta (self w) = "days"
  /\ recurrence_delta_count (self w) = 1000000000
  /\ within_recurring_notification_window w = (Raise OverflowError, w)
  /\ fst (within_recurring_notification_window w) <> Ok true.
Proof.
  cbv zeta. rewrite within_recurring_notification_window_spec.
  repeat split. vm_compute. discriminate.
Qed.

(** C10, amended: while [last_sent_at] is unset the recurrence check answers
    true, whatever the instant and the unit (one of the five choices or
    not), for every count whose cadence fits a [timedelta], that is at most
    999999999 days, which every count the validators of the field allow
    does; for a longer cadence the check raises [OverflowError] instead of
    answering.  It never answers false: spacing does not block the first
    send. *)
Theorem first_send_not_blocked_by_spacing (w : World) :
  last_sent_at (self w) = None ->
  (cadence_representable (self w) ->
   within_recurring_notification_window w = (Ok true, w))
  /\ (count_valid (self w) ->
      within_recurring_notification_window w = (Ok true, w))
  /\ (~ cadence_representable (self w) ->
      within_recurring_notification_window w = (Raise OverflowError, w)).
Proof.
  intros Hunset. rewrite within_recurring_notification_window_spec.
  split; [|split].
  - intros Hrep. rewrite spacing_unset; auto.
  - intros Hcount. rewrite spacing_unset; auto using count_valid_representable.
  - intros Hbig. unfold spacing, cadence_representable in *.
    destruct (cadence (self w)) as [d|]; [|destruct (Hbig I)].
    destruct (Z.gtb_spec (Z.abs (d / us_per_day)) 999999999);
      [reflexivity|contradiction].
Qed.

Lemma first_send_not_blocked_by_spacing_witness :
  within_recurring_notification_window
    (world_of (with_recurring (Some true) job_schedule) (5 * day))
  = (Ok true, world_of (with_recurring (Some true) job_schedule) (5 * day))
  /\ within_recurring_notification_window
       (world_of (with_cadence "fortnights" 5000
                    (with_recurring (Some true) job_schedule)) (5 * day))
     = (Ok true,
        world_of (with_cadence "fortnights" 5000
                    (with_recurring (Some true) job_schedule)) (5 * day))
  /\ within_recurring_notification_window
       (world_of oversized_group_schedule (5 * day))
     = (Raise OverflowError, world_of oversized_group_schedule (5 * day)).
Proof.
  split; [|split].
  - apply (proj1 (proj2 (first_send_not_blocked_by_spacing
                           (world_of (with_recurring (Some true) job_schedule)
                              (5 * day)) eq_refl))).
    unfold count_valid; simpl; lia.
  - apply (proj1 (first_send_not_blocked_by_spacing
                    (world_of (with_cadence "fortnights" 5000
                                 (with_recurring (Some true) job_schedule))
                       (5 * day)) eq_refl)).
    exact I.
  - apply (proj2 (proj2 (first_send_not_blocked_by_spacing
                           (world_of oversized_group_schedule (5 * day))
                           eq_refl))).
    intros H. vm_compute in H. apply H. reflexivity.
Defined.

(** C1, as stated, fails on a job root: a recurring job schedule with a
    cadence of two days, last sent at day 10 and evaluated at day 11 with its
    window open, is reported eligible. *)
Lemma recurrence_spacing_job_root_counterexample :
  let w := world_of recurring_job_schedule (11 * day) in
  truthy (recurring (self w)) = true
  /\ job_started (self w) job0 (clock w) = true
  /\ job_ended (self w) job0 (clock w) = false
  /\ last_sent_at (self w) = Some (10 * day)
  /\ cadence (self w) = Some (2 * day)
  /\ clock w - 10 * day < 2 * day
  /\ job_within_notification_window job0 w = (Ok true, w)
  /\ fst (job_within_notification_window job0 w) <> Ok false.
Proof.
  cbv zeta. repeat split; try reflexivity.
  rewrite job_within_notification_window_spec. vm_compute. discriminate.
Qed.

(** C1, amended: for a recurring schedule whose window is open and whose
    [last_sent_at] is set, a subject-group root is not eligible while
    [now - last_sent_at < cadence] and eligible from then on; a job root is
    eligible whatever the spacing.  Neither evaluation changes the
    schedule. *)
Theorem recurrence_spacing (w : World) (g : SubjectGroup) (job : Job) (sent d : Z) :
  truthy (recurring (self w)) = true ->
  last_sent_at (self w) = Some sent ->
  cadence (self w) = Some d ->
  count_valid (self w) ->
  (subject_group_started (self w) g (clock w) = true ->
   subject_group_ended (self w) g (clock w) = false ->
   (clock w - sent < d ->
    subject_group_within_notification_window g w = (Ok false, w))
   /\ (d <= clock w - sent ->
       subject_group_within_notification_window g w = (Ok true, w)))
  /\ (job_started (self w) job (clock w) = true ->
      job_ended (self w) job (clock w) = false ->
      job_within_notification_window job w = (Ok true, w)).
Proof.
  intros Hrec Hsent Hcad Hcount. split.
  - intros Hstart Hend.
    rewrite subject_group_within_notification_window_spec.
    unfold subject_group_decision. cbv zeta. rewrite Hstart, Hend, Hrec.
    rewrite (spacing_set _ _ sent d) by auto using count_valid_representable.
    split; intros Hlt.
    + apply Z.ltb_lt in Hlt. rewrite Hlt. reflexivity.
    + apply Z.ltb_ge in Hlt. rewrite Hlt. reflexivity.
  - intros Hstart Hend.
    rewrite job_within_notification_window_spec.
    unfold job_decision. cbv zeta. rewrite Hstart, Hend, Hrec. reflexivity.
Qed.

(** With a cadence of two days and a last send at day 10: a subject-group
    root is not eligible at day 11 and eligible at day 13. *)
Lemma recurrence_spacing_witness :
  subject_group_within_notification_window group0
    (world_of recurring_group_schedule (11 * day))
  = (Ok false, world_of recurring_group_schedule (11 * day))
  /\ subject_group_within_notification_window group0
       (world_of recurring_group_schedule (13 * day))
     = (Ok true, world_of recurring_group_schedule (13 * day))
  /\ job_within_notification_window job0
       (world_of recurring_job_schedule (11 * day))
     = (Ok true, world_of recurring_job_schedule (11 * day)).
Proof.
  split; [|split].
  - apply (recurrence_spacing (world_of recurring_group_schedule (11 * day))
             group0 job0 (10 * day) (2 * day));
      try reflexivity; unfold count_valid; simpl; unfold day, us_per_day,
        us_per_hour, us_per_minute, us_per_second; lia.
  - apply (recurrence_spacing (world_of recurring_group_schedule (13 * day))
             group0 job0 (10 * day) (2 * day));
      try reflexivity; unfold count_valid; simpl; unfold day, us_per_day,
        us_per_hour, us_per_minute, us_per_second; lia.
  - apply (recurrence_spacing (world_of recurring_job_schedule (11 * day))
             group0 job0 (10 * day) (2 * day));
      try reflexivity; unfold count_valid; simpl; lia.
Defined.

(** C5, as stated, fails on a job root: a one-shot job schedule that was
    never sent, evaluated with its window open, is deactivated. *)
Lemma one_shot_deactivation_job_root_counterexample :
  let w := world_of job_schedule (5 * day) in
  truthy (recurring (self w)) = false
  /\ job_started (self w) job0 (clock w) = true
  /\ job_ended (self w) job0 (clock w) = false
  /\ last_sent_at (self w) = None
  /\ job_within_notification_window job0 w = (Ok true, deactivated w)
  /\ active (self (snd (job_within_notification_window job0 w))) = false
  /\ db (snd (job_within_notification_window job0 w)) = [SaveActive false].
Proof.
  cbv zeta. rewrite job_within_notification_window_spec.
  repeat split; reflexivity.
Qed.

(** C5, amended: for a non-recurring schedule whose window is open, a
    subject-group root is deactivated ([active] assigned false and saved) if
    and only if [last_sent_at] is set; a job root is deactivated whether or
    not [last_sent_at] is set.  Both report the schedule eligible. *)
Theorem one_shot_deactivation (w : World) (g : SubjectGroup) (job : Job) :
  truthy (recurring (self w)) = false ->
  (subject_group_started (self w) g (clock w) = true ->
   subject_group_ended (self w) g (clock w) = false ->
   fst (subject_group_within_notification_window g w) = Ok true
   /\ (snd (subject_group_within_notification_window g w) = deactivated w
       <-> last_sent_at (self w) <> None)
   /\ (snd (subject_group_within_notification_window g w) = w
       <-> last_sent_at (self w) = None))
  /\ (job_started (self w) job (clock w) = true ->
      job_ended (self w) job (clock w) = false ->
      job_within_notification_window job w = (Ok true, deactivated w)).
Proof.
  intros Hrec. split.
  - intros Hstart Hend.
    rewrite subject_group_within_notification_window_spec.
    unfold subject_group_decision. cbv zeta. rewrite Hstart, Hend, Hrec.
    pose proof (deactivated_neq w) as Hneq.
    destruct (last_sent_at (self w)); simpl; repeat split; try congruence.
    all: intros; exfalso; congruence.
  - intros Hstart Hend.
    rewrite job_within_notification_window_spec.
    unfold job_decision. cbv zeta. rewrite Hstart, Hend, Hrec. reflexivity.
Qed.

Lemma one_shot_deactivation_witness :
  (fst (subject_group_within_notification_window group0
          (world_of group_schedule (5 * day))) = Ok true
   /\ (snd (subject_group_within_notification_window group0
              (world_of group_schedule (5 * day)))
       = deactivated (world_of group_schedule (5 * day))
       <-> last_sent_at group_schedule <> None)
   /\ (snd (subject_group_within_notification_window group0
              (world_of group_schedule (5 * day)))
       = world_of group_schedule (5 * day)
       <-> last_sent_at group_schedule = None))
  /\ job_within_notification_window job0 (world_of job_schedule (5 * day))
     = (Ok true, deactivated (world_of job_schedule (5 * day))).
Proof.
  split.
  - apply (one_shot_deactivation (world_of group_schedule (5 * day)) group0 job0);
      reflexivity.
  - apply (one_shot_deactivation (world_of job_schedule (5 * day)) group0 job0);
      reflexivity.
Defined.

Lemma past_end_at_mono s s' instant instant' :
  end_at s' = end_at s -> instant <= instant' ->
  past_end_at s instant = true -> past_end_at s' instant' = true.
Proof.
  unfold past_end_at. intros -> Hle. destruct (end_at s); [|discriminate].
  rewrite !Z.gtb_ltb, !Z.ltb_lt. lia.
Qed.

Lemma job_ended_mono s s' job instant instant' :
  same_window_configuration s s' -> instant <= instant' ->
  job_ended s job instant = true -> job_ended s' job instant' = true.
Proof.
  intros (_ & Htrig & Hat & _) Hle. unfold job_ended. rewrite Htrig.
  rewrite !orb_true_iff, !andb_true_iff. intros [H|[H1 H2]].
  - left. eauto using past_end_at_mono.
  - right. split; [exact H1|]. rewrite Z.gtb_ltb, Z.ltb_lt in *. lia.
Qed.

Lemma subject_group_ended_mono s s' g instant instant' :
  same_window_configuration s s' -> instant <= instant' ->
  subject_group_ended s g instant = true ->
  subject_group_ended s' g instant' = true.
Proof.
  intros (_ & Htrig & Hat & _) Hle. unfold subject_group_ended. rewrite Htrig.
  rewrite !orb_true_iff, !andb_true_iff. intros [H|[H1 H2]].
  - left. eauto using past_end_at_mono.
  - right. split; [exact H1|]. rewrite Z.gtb_ltb, Z.ltb_lt in *. lia.
Qed.

(** C9, as stated, fails: a one-shot job schedule whose window is open is
    deactivated by an evaluation, and the evaluation that follows at the
    same instant reports it eligible again. *)
Lemma window_monotonicity_counterexample :
  let w := world_of job_schedule (5 * day) in
  let w' := snd (job_within_notification_window job0 w) in
  truthy (recurring (self w)) = false
  /\ w' = deactivated w
  /\ active (self w') = false
  /\ clock w' = clock w
  /\ fst (job_within_notification_window job0 w') = Ok true
  /\ fst (job_within_notification_window job0 w') <> Ok false.
Proof.
  cbv zeta. rewrite !job_within_notification_window_spec.
  repeat split; try reflexivity. vm_compute. discriminate.
Qed.

(** C9, amended: for a non-recurring schedule and a fixed root, once an
    evaluation deactivates the schedule and reports it not eligible (the end
    condition is reached), every later evaluation at the same or a later
    instant reports it not eligible, whatever happened to [active] and
    [last_sent_at] in between. *)
Theorem window_monotonicity (w w' : World) (g : SubjectGroup) (job : Job) :
  truthy (recurring (self w)) = false ->
  same_window_configuration (self w) (self w') ->
  clock w <= clock w' ->
  (job_within_notification_window job w = (Ok false, deactivated w) ->
   fst (job_within_notification_window job w') = Ok false)
  /\ (subject_group_within_notification_window g w = (Ok false, deactivated w) ->
      fst (subject_group_within_notification_window g w') = Ok false).
Proof.
  intros Hrec Hcfg Hle.
  pose proof (deactivated_neq w) as Hneq.
  assert (Hrec' : truthy (recurring (self w')) = false).
  { destruct Hcfg as (_ & _ & _ & ->). exact Hrec. }
  split.
  - rewrite !job_within_notification_window_spec. unfold job_decision. cbv zeta.
    rewrite Hrec, Hrec'.
    destruct (job_started (self w) job (clock w)); [|intros; exfalso; congruence].
    destruct (job_ended (self w) job (clock w)) eqn:Hend; [|discriminate].
    intros _. rewrite (job_ended_mono _ _ _ _ _ Hcfg Hle Hend).
    destruct (job_started (self w') job (clock w')); reflexivity.
  - rewrite !subject_group_within_notification_window_spec.
    unfold subject_group_decision. cbv zeta. rewrite Hrec, Hrec'.
    destruct (subject_group_started (self w) g (clock w));
      [|intros; exfalso; congruence].
    destruct (subject_group_ended (self w) g (clock w)) eqn:Hend.
    + intros _. rewrite (subject_group_ended_mono _ _ _ _ _ Hcfg Hle Hend).
      destruct (subject_group_started (self w') g (clock w')); reflexivity.
    + destruct (last_sent_at (self w)); discriminate.
Qed.

Lemma window_monotonicity_witness :
  fst (job_within_notification_window job0
         (at_instant (6 * day) (deactivated (world_of ended_job_schedule (5 * day)))))
  = Ok false
  /\ fst (subject_group_within_notification_window group0
            (at_instant (6 * day)
               (deactivated (world_of ended_group_schedule (5 * day)))))
     = Ok false.
Proof.
  split.
  - refine (proj1 (window_monotonicity
                     (world_of ended_job_schedule (5 * day))
                     (at_instant (6 * day)
                        (deactivated (world_of ended_job_schedule (5 * day))))
                     group0 job0 _ _ _) _).
    + reflexivity.
    + repeat split.
    + vm_compute. discriminate.
    + vm_compute. reflexivity.
  - refine (proj2 (window_monotonicity
                     (world_of ended_group_schedule (5 * day))
                     (at_instant (6 * day)
                        (deactivated (world_of ended_group_schedule (5 * day))))
                     group0 job0 _ _ _) _).
    + reflexivity.
    + repeat split.
    + vm_compute. discriminate.
    + vm_compute. reflexivity.
Defined.

(** ** Audience *)

Lemma for_each_preserves {A B} (P : B -> Prop) (body : B -> A -> result B) xs :
  (forall acc x acc', P acc -> body acc x = Ok acc' -> P acc') ->
  forall acc acc', P acc -> for_each xs body acc = Ok acc' -> P acc'.
Proof.
  intros Hbody. induction xs as [|x xs IH]; simpl; intros acc acc' Hacc Hrun.
  - injection Hrun as <-. exact Hacc.
  - unfold mbind, result_bind in Hrun.
    destruct (body acc x) as [acc1|e] eqn:Hx; [|discriminate].
    eauto.
Qed.

Lemma for_each_raises {A B} (body : B -> A -> result B) xs x :
  x ∈ xs ->
  (forall acc, raises (body acc x) = true) ->
  forall acc, raises (for_each xs body acc) = true.
Proof.
  intros Hin Hx. induction xs as [|y xs IH]; [inversion Hin|].
  intros acc. simpl. unfold mbind, result_bind.
  destruct (body acc y) as [acc1|e] eqn:Hy; [|reflexivity].
  apply elem_of_cons in Hin as [->|Hin].
  - specialize (Hx acc). rewrite Hy in Hx. discriminate.
  - apply IH, Hin.
Qed.

(** One call keeps every element in place and adds the candidate at the end
    unless an equal dict is already there. *)
Lemma unique_gaia_users_models_spec l gu sg j se e c l' :
  unique_gaia_users_models l gu sg j se e c None = Ok l' ->
  context_dict gu sg j se e c ∈ l'
  /\ (l' = l /\ context_dict gu sg j se e c ∈ l
      \/ l' = l ++ [context_dict gu sg j se e c]
         /\ context_dict gu sg j se e c ∉ l).
Proof.
  unfold unique_gaia_users_models. intros [= <-].
  case_bool_decide as Hin.
  - split; [exact Hin|]. left. auto.
  - split; [|right; auto]. apply elem_of_app. right. apply list_elem_of_singleton. reflexivity.
Qed.

Lemma unique_gaia_users_models_NoDup l gu sg j se e c subj l' :
  NoDup l ->
  unique_gaia_users_models l gu sg j se e c subj = Ok l' ->
  NoDup l'.
Proof.
  intros Hnd Hrun. destruct subj; [discriminate|].
  apply unique_gaia_users_models_spec in Hrun as [_ [[-> _]|[-> Hnin]]];
    [exact Hnd|].
  apply NoDup_app. repeat split; [exact Hnd| |apply NoDup_singleton].
  intros b Hb Hb'. apply list_elem_of_singleton in Hb'. subst. contradiction.
Qed.

(** Walks an equation [builder = Ok l] down to the calls of
    [unique_gaia_users_models], carrying [NoDup] from one accumulator to the
    next. *)
Ltac carry_NoDup :=
  repeat match goal with
    | H : Raise _ = Ok _ |- _ => discriminate H
    | H : Ok _ = Ok _ |- _ => injection H as H; subst
    | H : (if ?b then _ else _) = Ok _ |- _ => destruct b
    | H : match ?r with Ok _ => _ | Raise _ => _ end = Ok _ |- _ =>
        let E := fresh "E" in destruct r eqn:E
    | H : (let _ := _ in _) = Ok _ |- _ => cbv zeta in H
    | H : unique_gaia_users_models ?acc _ _ _ _ _ _ _ = Ok ?a, Hn : NoDup ?acc |- _ =>
        apply (unique_gaia_users_models_NoDup _ _ _ _ _ _ _ _ _ Hn) in H
    | H : for_each ?xs ?body ?acc = Ok ?a, Hn : NoDup ?acc |- _ =>
        apply (for_each_preserves NoDup body xs) in H;
        [ | clear H; intros; carry_NoDup; assumption | exact Hn ]
    end.

Lemma job_gaia_users_models_NoDup orm s job l :
  job_gaia_users_models orm s job = Ok l -> NoDup l.
Proof.
  unfold job_gaia_users_models, mbind, result_bind. cbv zeta. intros H.
  assert (Hnil : NoDup (@nil bundle)) by constructor.
  carry_NoDup; assumption.
Qed.

Lemma gaia_users_models_for_subject_group_NoDup orm s g l :
  gaia_users_models_for_subject_group orm s g = Ok l -> NoDup l.
Proof.
  unfold gaia_users_models_for_subject_group, mbind, result_bind. cbv zeta.
  intros H. assert (Hnil : NoDup (@nil bundle)) by constructor.
  carry_NoDup; assumption.
Qed.

Lemma returns_ok {A} (a : A) : returns (Ok a).
Proof. exists a. reflexivity. Qed.

Lemma returns_bind {A B} (r : result A) (f : A -> result B) :
  returns r -> (forall a, returns (f a)) -> returns (r ≫= f).
Proof. intros [a ->] Hf. apply Hf. Qed.

Lemma returns_for_each {A B} (body : B -> A -> result B) xs :
  (forall acc x, returns (body acc x)) -> forall acc, returns (for_each xs body acc).
Proof.
  intros Hbody. induction xs as [|x xs IH]; intros acc; simpl.
  - apply returns_ok.
  - apply returns_bind; [apply Hbody|apply IH].
Qed.

Lemma returns_unique_gaia_users_models l gu sg j se e c :
  returns (unique_gaia_users_models l gu sg j se e c None).
Proof. eexists. reflexivity. Qed.

Ltac show_returns :=
  cbv zeta;
  repeat first
    [ apply returns_ok
    | apply returns_unique_gaia_users_models
    | apply returns_for_each; intros ? ?; cbv zeta
    | apply returns_bind; [|intros ?]
    | match goal with |- returns (if ?b then _ else _) => destruct b end ].

(** Without a subject filter both builders return. *)
Lemma job_gaia_users_models_returns orm s j :
  any_subject_filter s = false ->
  returns (job_gaia_users_models orm s (job_as_job orm j)).
Proof.
  intros Hoff. unfold job_gaia_users_models. rewrite Hoff. simpl. show_returns.
Qed.

Lemma gaia_users_models_for_subject_group_returns orm s g :
  any_subject_filter s = false \/ subject_group_jobs orm g = [] ->
  returns (gaia_users_models_for_subject_group orm s g).
Proof.
  intros Hcase. unfold gaia_users_models_for_subject_group.
  destruct Hcase as [Hoff| ->]; [rewrite Hoff|]; simpl; show_returns.
Qed.

(** Settles a closed, decidable statement by evaluating its decision. *)
Ltac by_evaluation := apply (bool_decide_unpack _); vm_compute; exact I.

Lemma NoDup_distinct_bundles (l : list bundle) : NoDup l -> distinct_bundles l.
Proof.
  intros Hnd i j b b' Hi Hj Hslots.
  assert (b = b') as <- by (apply map_eq; exact Hslots).
  eapply NoDup_lookup; eauto.
Qed.

(** Two person clients of one job share a recipient: the second candidate
    equals the first and is dropped. *)
Example duplicate_candidate_dropped :
  job_gaia_users_models orm0 staff_and_persons_schedule (job_as_job orm0 job0)
  = Ok [ {[ "gaia_user" := inst_gaia_user alice; "job" := inst_job job0;
            "employee" := inst_employee employee_a ]};
         {[ "gaia_user" := inst_gaia_user bob; "job" := inst_job job0;
            "employee" := inst_employee employee_b ]};
         {[ "gaia_user" := inst_gaia_user carol; "job" := inst_job job0 ]} ].
Proof. by_evaluation. Qed.

(** C4: whatever either audience builder returns holds no two dicts that
    agree at every slot; a call of [unique_gaia_users_models] leaves the list
    as it is when an equal dict is already in it and otherwise appends the
    candidate at the end, so the order is that of first emission; and
    without a subject filter both builders do return. *)
Theorem dedup_invariant (orm : ORM) (s : NotificationSchedule) :
  (forall job l, job_gaia_users_models orm s job = Ok l -> distinct_bundles l)
  /\ (forall g l,
        gaia_users_models_for_subject_group orm s g = Ok l -> distinct_bundles l)
  /\ (forall l gu sg j se e c l',
        unique_gaia_users_models l gu sg j se e c None = Ok l' ->
        l' = l /\ context_dict gu sg j se e c ∈ l
        \/ l' = l ++ [context_dict gu sg j se e c]
           /\ context_dict gu sg j se e c ∉ l)
  /\ (any_subject_filter s = false ->
      forall j g,
        returns (job_gaia_users_models orm s (job_as_job orm j))
        /\ returns (gaia_users_models_for_subject_group orm s g)).
Proof.
  repeat split.
  - intros job l H. eapply NoDup_distinct_bundles, job_gaia_users_models_NoDup, H.
  - intros g l H.
    eapply NoDup_distinct_bundles, gaia_users_models_for_subject_group_NoDup, H.
  - intros l gu sg j se e c l' H.
    apply unique_gaia_users_models_spec in H. tauto.
  - apply job_gaia_users_models_returns. assumption.
  - apply gaia_users_models_for_subject_group_returns. auto.
Qed.

Lemma dedup_invariant_witness :
  distinct_bundles
    [ {[ "gaia_user" := inst_gaia_user alice; "job" := inst_job job0;
         "employee" := inst_employee employee_a ]};
      {[ "gaia_user" := inst_gaia_user bob; "job" := inst_job job0;
         "employee" := inst_employee employee_b ]};
      {[ "gaia_user" := inst_gaia_user carol; "job" := inst_job job0 ]} ]
  /\ returns (job_gaia_users_models orm0 staff_and_persons_schedule
                (job_as_job orm0 job0))
  /\ returns (gaia_users_models_for_subject_group orm0
                staff_and_persons_schedule group0).
Proof.
  split.
  - apply (proj1 (dedup_invariant orm0 staff_and_persons_schedule)
             (job_as_job orm0 job0)).
    by_evaluation.
  - apply (proj2 (proj2 (proj2 (dedup_invariant orm0 staff_and_persons_schedule)))).
    reflexivity.
Defined.

Lemma for_each_raise_inv {A B} (body : B -> A -> result B) xs e :
  forall acc, for_each xs body acc = Raise e ->
  exists acc0 x, x ∈ xs /\ body acc0 x = Raise e.
Proof.
  induction xs as [|x xs IH]; simpl; intros acc Hrun; [discriminate|].
  unfold mbind, result_bind in Hrun.
  destruct (body acc x) as [acc1|e1] eqn:Hx.
  - destruct (IH _ Hrun) as (acc0 & y & Hy & Hraise).
    exists acc0, y. split; [apply elem_of_cons; auto|exact Hraise].
  - injection Hrun as ->. exists acc, x. split; [apply elem_of_cons; auto|exact Hx].
Qed.

Lemma unique_gaia_users_models_raise l gu sg j se e c subj x :
  unique_gaia_users_models l gu sg j se e c subj = Raise x -> x = TypeError.
Proof. unfold unique_gaia_users_models. destruct subj; congruence. Qed.

(** Walks an equation [builder = Raise e] down to the call that raised. *)
Ltac trace_raise :=
  repeat match goal with
    | H : Ok _ = Raise _ |- _ => discriminate H
    | H : Raise _ = Raise _ |- _ => injection H as H; subst
    | H : (if ?b then _ else _) = Raise _ |- _ => destruct b
    | H : match ?r with Ok _ => _ | Raise _ => _ end = Raise _ |- _ =>
        let E := fresh "E" in destruct r eqn:E
    | H : unique_gaia_users_models _ _ _ _ _ _ _ _ = Raise _ |- _ =>
        apply unique_gaia_users_models_raise in H; subst
    | H : for_each _ _ _ = Raise _ |- _ =>
        apply for_each_raise_inv in H; destruct H as (? & ? & _ & H)
    end.

(** On a job the only exception the builder raises is the [TypeError] of
    [unique_gaia_users_models]. *)
Lemma job_gaia_users_models_raise orm s j e :
  job_gaia_users_models orm s (job_as_job orm j) = Raise e -> e = TypeError.
Proof.
  unfold job_gaia_users_models, mbind, result_bind. cbv zeta. simpl.
  intros H. trace_raise; reflexivity.
Qed.

Lemma job_gaia_users_models_booked_raises orm s j g subject session :
  truthy (subjects_booked s) = true ->
  g ∈ job_subject_groups orm j ->
  subject ∈ subject_group_subjects orm g ->
  job_subjects_session orm j subject = Some session ->
  raises (job_gaia_users_models orm s (job_as_job orm j)) = true.
Proof.
  intros Hflag Hg Hsubject Hsession.
  unfold job_gaia_users_models, any_subject_filter. cbv zeta.
  rewrite Hflag. simpl.
  unfold mbind at 1, result_bind at 1.
  match goal with |- context [match ?r with Ok _ => _ | Raise _ => _ end] =>
    destruct r; [|reflexivity] end.
  unfold mbind at 1, result_bind at 1.
  match goal with |- context [match ?r with Ok _ => _ | Raise _ => _ end] =>
    destruct r; [|reflexivity] end.
  apply (for_each_raises _ _ g Hg). intros acc.
  apply (for_each_raises _ _ subject Hsubject). intros acc'.
  rewrite Hsession. reflexivity.
Qed.

(** C3 (the code departs from it): whenever a subject of a subject group
    attached to the job has a booked session on the job and [subjects_booked]
    is set, [job_gaia_users_models] raises [TypeError]; no dict is emitted
    for the subject's recipient. *)
Theorem booked_subject_raises_TypeError orm s j g subject session :
  truthy (subjects_booked s) = true ->
  g ∈ job_subject_groups orm j ->
  subject ∈ subject_group_subjects orm g ->
  job_subjects_session orm j subject = Some session ->
  job_gaia_users_models orm s (job_as_job orm j) = Raise TypeError.
Proof.
  intros Hflag Hg Hsubject Hsession.
  pose proof (job_gaia_users_models_booked_raises orm s j g subject session
                Hflag Hg Hsubject Hsession) as Hraises.
  destruct (job_gaia_users_models orm s (job_as_job orm j)) as [l|e] eqn:Hrun;
    [discriminate|].
  apply job_gaia_users_models_raise in Hrun. congruence.
Qed.

Lemma booked_subject_raises_TypeError_witness :
  job_gaia_users_models orm0 booked_schedule (job_as_job orm0 job0)
  = Raise TypeError.
Proof.
  apply (booked_subject_raises_TypeError orm0 booked_schedule job0 group0
           subject0 session0).
  - reflexivity.
  - simpl. apply list_elem_of_singleton. reflexivity.
  - simpl. apply list_elem_of_singleton. reflexivity.
  - reflexivity.
Defined.

(** The slots of the dict one call builds: the ["subject"] slot is never
    filled. *)
Lemma context_dict_lookup gu sg j se e c :
  context_dict gu sg j se e c !! "gaia_user" = Some (inst_gaia_user gu)
  /\ context_dict gu sg j se e c !! "subject_group" = sg
  /\ context_dict gu sg j se e c !! "job" = j
  /\ context_dict gu sg j se e c !! "session" = se
  /\ context_dict gu sg j se e c !! "employee" = e
  /\ context_dict gu sg j se e c !! "client" = c
  /\ context_dict gu sg j se e c !! "subject" = None.
Proof.
  unfold context_dict.
  destruct sg, j, se, e, c; repeat split; reflexivity.
Qed.

Lemma context_dict_subject_group gu sg j se e c :
  context_dict gu sg j se e c !! "subject_group" = sg.
Proof. exact (proj1 (proj2 (context_dict_lookup gu sg j se e c))). Qed.

Lemma unique_gaia_users_models_Forall (Q : bundle -> Prop) l gu sg j se e c l' :
  Forall Q l ->
  Q (context_dict gu sg j se e c) ->
  unique_gaia_users_models l gu sg j se e c None = Ok l' ->
  Forall Q l'.
Proof.
  intros Hall Hnew Hrun.
  apply unique_gaia_users_models_spec in Hrun as [_ [[-> _]|[-> _]]];
    [exact Hall|].
  apply Forall_app. split; [exact Hall|]. constructor; [exact Hnew|constructor].
Qed.

(** Walks an equation [builder = Ok l] down to the calls of
    [unique_gaia_users_models], carrying a property of every element;
    [slot] proves it of a new dict. *)
Ltac carry_Forall slot :=
  repeat match goal with
    | H : Raise _ = Ok _ |- _ => discriminate H
    | H : Ok _ = Ok _ |- _ => injection H as H; subst
    | H : (if ?b then _ else _) = Ok _ |- _ => destruct b
    | H : match ?r with Ok _ => _ | Raise _ => _ end = Ok _ |- _ =>
        let E := fresh "E" in destruct r eqn:E
    | H : unique_gaia_users_models _ _ _ _ _ _ _ (Some _) = Ok _ |- _ =>
        discriminate H
    | H : unique_gaia_users_models ?acc _ _ _ _ _ _ None = Ok ?a,
      Hn : Forall _ ?acc |- _ =>
        apply (unique_gaia_users_models_Forall _ _ _ _ _ _ _ _ _ Hn) in H;
        [|slot]
    | H : for_each ?xs ?body ?acc = Ok ?a, Hn : Forall ?Q ?acc |- _ =>
        apply (for_each_preserves (Forall Q) body xs) in H;
        [ | clear H; intros; carry_Forall slot; assumption | exact Hn ]
    end.

(** Every dict of the subject-group builder carries the subject group. *)
Lemma gaia_users_models_for_subject_group_slot orm s g l :
  gaia_users_models_for_subject_group orm s g = Ok l ->
  Forall (fun b : bundle => b !! "subject_group" = Some (inst_subject_group g)) l.
Proof.
  unfold gaia_users_models_for_subject_group, mbind, result_bind. cbv zeta.
  intros H.
  assert (Hnil : Forall (fun b : bundle =>
                           b !! "subject_group" = Some (inst_subject_group g))
                        []) by constructor.
  carry_Forall ltac:(exact (context_dict_subject_group _ _ _ _ _ _)); assumption.
Qed.

(** No dict the job builder returns carries a subject group, whatever
    object stands for the job. *)
Lemma job_gaia_users_models_slot orm s job l :
  job_gaia_users_models orm s job = Ok l ->
  Forall (fun b : bundle => b !! "subject_group" = None) l.
Proof.
  unfold job_gaia_users_models, mbind, result_bind. cbv zeta.
  intros H.
  assert (Hnil : Forall (fun b : bundle => b !! "subject_group" = None) [])
    by constructor.
  carry_Forall ltac:(exact (context_dict_subject_group _ _ _ _ _ _)); assumption.
Qed.

(** For a subject-group root the dispatcher builds the audience with
    [job_gaia_users_models], the subject group standing for the job. *)
Lemma resolve_audience_subject_group orm g w :
  resolve_audience orm None (Some g) w
  = match subject_group_within_notification_window g w with
    | (Ok true, w') =>
        (Some <$> job_gaia_users_models orm (self w') (subject_group_as_job orm g),
         w')
    | (Ok false, w') => (Ok None, w')
    | (Raise e, w') => (Raise e, w')
    end.
Proof.
  unfold resolve_audience. run_M.
  destruct (subject_group_within_notification_window g w) as [[[]|] w'];
    reflexivity.
Qed.

(** C2 (the code departs from it): whenever the window of a subject-group
    root is open and [gaia_users_models_for_subject_group] yields a non-empty
    audience, the audience the dispatcher resolves is a different one; this
    holds whatever [SubjectGroup] answers for the attributes of a job. *)
Theorem subject_group_root_audience_differs orm (w w' : World)
    (g : SubjectGroup) (l : list bundle) :
  subject_group_within_notification_window g w = (Ok true, w') ->
  gaia_users_models_for_subject_group orm (self w') g = Ok l ->
  l <> [] ->
  fst (resolve_audience orm None (Some g) w) <> Ok (Some l).
Proof.
  intros Hopen Hgroup Hne.
  rewrite resolve_audience_subject_group, Hopen. simpl.
  destruct (job_gaia_users_models orm (self w') (subject_group_as_job orm g))
    as [l'|e] eqn:Hjob; simpl; [|discriminate].
  intros [= ->].
  apply gaia_users_models_for_subject_group_slot in Hgroup.
  apply job_gaia_users_models_slot in Hjob.
  destruct l as [|b l]; [congruence|].
  apply Forall_cons in Hgroup as [Hb _]. apply Forall_cons in Hjob as [Hb' _].
  congruence.
Qed.

(** The subject group [group1] has a person client and no job: the
    subject-group builder yields one dict for the client's recipient, the
    dispatcher raises [AttributeError]. *)
Lemma subject_group_root_audience_differs_witness :
  gaia_users_models_for_subject_group orm0 persons_group_schedule group1
  = Ok [ {[ "gaia_user" := inst_gaia_user carol;
            "subject_group" := inst_subject_group group1;
            "client" := inst_client client0 ]} ]
  /\ fst (resolve_audience orm0 None (Some group1)
            (world_of persons_group_schedule (5 * day)))
     = Raise AttributeError
  /\ fst (resolve_audience orm0 None (Some group1)
            (world_of persons_group_schedule (5 * day)))
     <> Ok (Some [ {[ "gaia_user" := inst_gaia_user carol;
                      "subject_group" := inst_subject_group group1;
                      "client" := inst_client client0 ]} ]).
Proof.
  split; [by_evaluation|]. split; [by_evaluation|].
  apply (subject_group_root_audience_differs orm0
           (world_of persons_group_schedule (5 * day))
           (world_of persons_group_schedule (5 * day)) group1).
  - by_evaluation.
  - by_evaluation.
  - discriminate.
Defined.

(** ** Template context *)

Lemma dynamic_context_item_slot env (b : bundle) acc key ref slot :
  slot_of ref = Some slot ->
  dynamic_context_item env b acc (key, ref)
  = v ← get_model_field env ref (b !! slot); Ok (<[ key := v ]> acc).
Proof.
  unfold slot_of, dynamic_context_item.
  repeat (match goal with
          | |- context [if ?c then _ else _] => destruct c; simpl
          end;
          try (intros [= <-]; reflexivity); try discriminate).
Qed.

Lemma dynamic_context_item_unknown env (b : bundle) acc key ref :
  unknown_kind ref -> dynamic_context_item env b acc (key, ref) = Ok acc.
Proof.
  unfold unknown_kind, slot_of, dynamic_context_item. intros [-> Hnone].
  simpl in *.
  repeat match goal with
         | |- context [if ?c then _ else _] => destruct c; simpl in *
         end;
    try discriminate; reflexivity.
Qed.

(** An item writes no key but its own. *)
Lemma dynamic_context_item_other env (b : bundle) acc acc' key ref key' :
  dynamic_context_item env b acc (key, ref) = Ok acc' ->
  key <> key' -> acc' !! key' = acc !! key'.
Proof.
  unfold dynamic_context_item, mbind, result_bind. intros Hrun Hne.
  repeat match type of Hrun with
         | context [if ?c then _ else _] => destruct c; simpl in Hrun
         end;
    repeat match type of Hrun with
           | context [match ?r with Ok _ => _ | Raise _ => _ end] => destruct r
           end;
    try discriminate; injection Hrun as <-;
    rewrite ?lookup_insert_ne by exact Hne; reflexivity.
Qed.

Lemma for_each_items_other env (b : bundle) items :
  forall acc acc' key',
    for_each items (dynamic_context_item env b) acc = Ok acc' ->
    key' ∉ items.*1 -> acc' !! key' = acc !! key'.
Proof.
  induction items as [|[key ref] items IH]; cbn [for_each fmap list_fmap fst];
    intros acc acc' key' Hrun Hnotin.
  - injection Hrun as <-. reflexivity.
  - unfold mbind, result_bind in Hrun.
    destruct (dynamic_context_item env b acc (key, ref)) as [acc1|] eqn:Hitem;
      [|discriminate].
    apply not_elem_of_cons in Hnotin as [Hne Hnotin].
    rewrite (IH _ _ _ Hrun Hnotin).
    eapply dynamic_context_item_other; eauto.
Qed.

(** What the item of a key wrote is what the finished context holds under
    that key, and nothing was written under it before, when no two items
    share a key. *)
Lemma for_each_items_lookup env (b : bundle) items key ref :
  NoDup items.*1 -> (key, ref) ∈ items ->
  forall acc acc',
    for_each items (dynamic_context_item env b) acc = Ok acc' ->
    exists before after,
      dynamic_context_item env b before (key, ref) = Ok after
      /\ before !! key = acc !! key
      /\ acc' !! key = after !! key.
Proof.
  induction items as [|[key1 ref1] items IH]; cbn [for_each fmap list_fmap fst];
    intros Hnd Hin acc acc' Hrun.
  - inversion Hin.
  - unfold mbind, result_bind in Hrun.
    destruct (dynamic_context_item env b acc (key1, ref1)) as [acc1|] eqn:Hitem;
      [|discriminate].
    apply NoDup_cons in Hnd as [Hnotin Hnd].
    apply elem_of_cons in Hin as [[= -> ->]|Hin].
    + exists acc, acc1. repeat split; [exact Hitem|].
      eapply for_each_items_other; eauto.
    + destruct (IH Hnd Hin _ _ Hrun) as (before & after & Hstep & Hbefore & Hafter).
      exists before, after. repeat split; [exact Hstep| |exact Hafter].
      rewrite Hbefore. eapply dynamic_context_item_other; [exact Hitem|].
      intros ->. apply Hnotin.
      change key with (fst (key, ref)). apply list_elem_of_fmap_2. exact Hin.
Qed.

(** C7: an entry whose reference, of the shape [<kind>.<field>], is resolved
    against a slot the context dict lacks puts [None] under its key and
    raises nothing; the finished context maps the key to [None]. *)
Theorem absent_slot_resolves_to_None env (b : bundle) (key ref slot field : string) :
  slot_of ref = Some slot ->
  b !! slot = None ->
  split "." ref !! 1%nat = Some field ->
  (forall acc,
     dynamic_context_item env b acc (key, ref) = Ok (<[ key := VNone ]> acc))
  /\ (forall t m,
        (key, ref) ∈ context t -> NoDup (context t).*1 ->
        dynamic_context env t (Some b) = Ok m ->
        m !! key = Some VNone).
Proof.
  intros Hslot Habsent Hfield.
  assert (Hitem : forall acc,
             dynamic_context_item env b acc (key, ref) = Ok (<[ key := VNone ]> acc)).
  { intros acc. rewrite (dynamic_context_item_slot _ _ _ _ _ slot Hslot).
    unfold get_model_field. rewrite Hfield, Habsent. reflexivity. }
  split; [exact Hitem|].
  intros t m Hin Hnd Hrun. unfold dynamic_context in Hrun.
  destruct (for_each_items_lookup _ _ _ _ _ Hnd Hin _ _ Hrun)
    as (before & after & Hstep & _ & ->).
  rewrite Hitem in Hstep. injection Hstep as <-. apply lookup_insert_eq.
Qed.

Lemma absent_slot_resolves_to_None_witness :
  dynamic_context_item env0 staff_dict ∅ ("session_time", "@Session.start_time")
  = Ok {[ "session_time" := VNone ]}
  /\ ({[ "email_subject" := VStr "Your photos";
         "first_name" := VStr "first_name";
         "session_time" := VNone ]} : gmap string value) !! "session_time"
     = Some VNone.
Proof.
  split.
  - apply (proj1 (absent_slot_resolves_to_None env0 staff_dict "session_time"
                    "@Session.start_time" "session" "start_time"
                    eq_refl eq_refl eq_refl)).
  - apply (proj2 (absent_slot_resolves_to_None env0 staff_dict "session_time"
                    "@Session.start_time" "session" "start_time"
                    eq_refl eq_refl eq_refl) template0).
    + by_evaluation.
    + by_evaluation.
    + by_evaluation.
Defined.

(** Without the [.<field>] part the helper raises before it looks at the
    slot. *)
Example reference_without_field_raises :
  dynamic_context_item env0 staff_dict ∅ ("session_time", "@Session")
  = Raise IndexError.
Proof. reflexivity. Qed.

(** C8, as stated, fails: the entry [venue], whose reference names no known
    kind, is left out of the context; it is not mapped to [None] the way the
    entry [session_time] of the same template is. *)
Lemma unknown_kind_counterexample :
  unknown_kind "@Venue.name"
  /\ exists m,
       dynamic_context env0 template0 (Some staff_dict) = Ok m
       /\ m !! "session_time" = Some VNone
       /\ m !! "venue" = None
       /\ m !! "venue" <> Some VNone.
Proof.
  split; [split; reflexivity|].
  exists {[ "email_subject" := VStr "Your photos";
            "first_name" := VStr "first_name";
            "session_time" := VNone ]}.
  split; [by_evaluation|].
  split; [reflexivity|]. split; [reflexivity|].
  intros H. vm_compute in H. discriminate H.
Qed.

(** C8, amended: an entry whose reference has the entity marker and names
    none of the seven kinds raises nothing and writes nothing: the context
    is passed on as it was and the finished context has no entry under the
    key. *)
Theorem unknown_kind_is_left_out env (b : bundle) (key ref : string) :
  unknown_kind ref ->
  (forall acc, dynamic_context_item env b acc (key, ref) = Ok acc)
  /\ (forall t m,
        (key, ref) ∈ context t -> NoDup (context t).*1 ->
        dynamic_context env t (Some b) = Ok m ->
        m !! key = None).
Proof.
  intros Hunknown.
  pose proof (fun acc => dynamic_context_item_unknown env b acc key ref Hunknown)
    as Hitem.
  split; [exact Hitem|].
  intros t m Hin Hnd Hrun. unfold dynamic_context in Hrun.
  destruct (for_each_items_lookup _ _ _ _ _ Hnd Hin _ _ Hrun)
    as (before & after & Hstep & Hbefore & ->).
  rewrite Hitem in Hstep. injection Hstep as <-.
  rewrite Hbefore. apply lookup_empty.
Qed.

Lemma unknown_kind_is_left_out_witness :
  dynamic_context_item env0 staff_dict {[ "first_name" := VStr "Alice" ]}
    ("venue", "@Venue.name")
  = Ok {[ "first_name" := VStr "Alice" ]}.
Proof.
  apply (proj1 (unknown_kind_is_left_out env0 staff_dict "venue" "@Venue.name"
                  (conj eq_refl eq_refl))).
Defined.

(** ** Channels *)

Lemma smtp_send_contextual_template_notification_spec env d t w :
  smtp_send_contextual_template_notification env d (Some t) w
  = match email_for env t d with
    | Ok e => (Ok tt, delivered [e] w)
    | Raise x => (Raise x, w)
    end.
Proof.
  unfold smtp_send_contextual_template_notification, email_for.
  unfold mbind, M_bind, result_bind, lift, deliver, delivered.
  destruct (render env t (Some d)); [|reflexivity].
  destruct (d !! "gaia_user"); [|reflexivity].
  destruct (subscript (context t) "email_subject"); [|reflexivity].
  destruct (send_email_task env _ _ _ _) as [[]|]; reflexivity.
Qed.

Lemma delivered_nil w : delivered [] w = w.
Proof. destruct w. unfold delivered. simpl. rewrite app_nil_r. reflexivity. Qed.

Lemma delivered_app es es' w : delivered es' (delivered es w) = delivered (es ++ es') w.
Proof. unfold delivered. simpl. rewrite app_assoc. reflexivity. Qed.

(** The loop of [send_email_notifications] over a prefix whose deliveries
    all succeed. *)
Lemma email_loop_succeeds env t ds :
  forall emails w (sent : bool),
    contextual_notification_template (self w) = Some t ->
    mapM (email_for env t) ds = Ok emails ->
    for_each_M ds (fun (sent : bool) gaia_user_models =>
      s ← get_self;
      smtp_send_contextual_template_notification env gaia_user_models
        (contextual_notification_template s) ;;
      mret (if sent then sent else true)) sent w
    = (Ok (sent || nonempty ds), delivered emails w).
Proof.
  induction ds as [|d ds IH]; intros emails w sent Ht Hmap.
  - injection Hmap as <-. simpl. rewrite delivered_nil, orb_false_r. reflexivity.
  - cbn [mapM] in Hmap. unfold mbind at 1, result_bind at 1 in Hmap.
    destruct (email_for env t d) as [e|] eqn:He; [|discriminate].
    unfold mbind at 1, result_bind at 1 in Hmap.
    destruct (mapM (email_for env t) ds) as [es|] eqn:Hes; [|discriminate].
    injection Hmap as <-.
    cbn [for_each_M]. unfold mbind at 1, M_bind at 1.
    unfold mbind at 1, M_bind at 1, get_self at 1. rewrite Ht.
    unfold mbind at 1, M_bind at 1.
    rewrite smtp_send_contextual_template_notification_spec, He.
    unfold mret at 1, M_ret at 1.
    rewrite (IH es (delivered [e] w) _ Ht eq_refl).
    rewrite delivered_app. simpl. destruct sent; reflexivity.
Qed.

(** The loop stops at the first delivery that raises. *)
Lemma email_loop_fails env t pre d post x :
  forall emails w (sent : bool),
    contextual_notification_template (self w) = Some t ->
    mapM (email_for env t) pre = Ok emails ->
    email_for env t d = Raise x ->
    for_each_M (pre ++ d :: post) (fun (sent : bool) gaia_user_models =>
      s ← get_self;
      smtp_send_contextual_template_notification env gaia_user_models
        (contextual_notification_template s) ;;
      mret (if sent then sent else true)) sent w
    = (Raise x, delivered emails w).
Proof.
  induction pre as [|p pre IH]; intros emails w sent Ht Hmap Hd.
  - injection Hmap as <-. cbn [app for_each_M].
    unfold mbind at 1, M_bind at 1.
    unfold mbind at 1, M_bind at 1, get_self at 1. rewrite Ht.
    unfold mbind at 1, M_bind at 1.
    rewrite smtp_send_contextual_template_notification_spec, Hd.
    rewrite delivered_nil. reflexivity.
  - cbn [mapM] in Hmap. unfold mbind at 1, result_bind at 1 in Hmap.
    destruct (email_for env t p) as [e|] eqn:He; [|discriminate].
    unfold mbind at 1, result_bind at 1 in Hmap.
    destruct (mapM (email_for env t) pre) as [es|] eqn:Hes; [|discriminate].
    injection Hmap as <-.
    cbn [app for_each_M]. unfold mbind at 1, M_bind at 1.
    unfold mbind at 1, M_bind at 1, get_self at 1. rewrite Ht.
    unfold mbind at 1, M_bind at 1.
    rewrite smtp_send_contextual_template_notification_spec, He.
    unfold mret at 1, M_ret at 1.
    rewrite (IH es (delivered [e] w) _ Ht eq_refl Hd).
    rewrite delivered_app. reflexivity.
Qed.

Lemma send_email_notifications_fails env t pre d post x emails w :
  contextual_notification_template (self w) = Some t ->
  mapM (email_for env t) pre = Ok emails ->
  email_for env t d = Raise x ->
  send_email_notifications env (pre ++ d :: post) w = (Raise x, delivered emails w).
Proof.
  intros Ht Hmap Hd. unfold send_email_notifications.
  unfold mbind at 1, M_bind at 1.
  rewrite (email_loop_fails env t pre d post x emails w false Ht Hmap Hd).
  reflexivity.
Qed.

Lemma send_email_notifications_succeeds env t ds emails w :
  contextual_notification_template (self w) = Some t ->
  mapM (email_for env t) ds = Ok emails ->
  send_email_notifications env ds w
  = (Ok tt, if nonempty ds then stamped (delivered emails w) else w).
Proof.
  intros Ht Hmap. unfold send_email_notifications.
  unfold mbind at 1, M_bind at 1.
  rewrite (email_loop_succeeds env t ds emails w false Ht Hmap).
  destruct ds as [|d ds].
  - injection Hmap as <-. rewrite delivered_nil. reflexivity.
  - reflexivity.
Qed.

(** The SMS channel raises on the first dict: the connector is handed the
    template where it expects the recipient. *)
Lemma send_sms_notifications_raises d ds w :
  send_sms_notifications (d :: ds) w = (Raise AttributeError, w).
Proof. reflexivity. Qed.

(** C6, as stated, fails: the mail to bob raises, after the mail to alice
    went out; the exception reaches the caller, carol is not mailed, the SMS
    channel is not run and [last_sent_at] stays unset. *)
Lemma failure_isolation_counterexample :
  let w := world_of two_channel_schedule (5 * day) in
  let w' := snd (send_notifications env0 [dict_alice; dict_bob; dict_carol] w) in
  email_for env0 template0 dict_alice = Ok (mail alice)
  /\ email_for env0 template0 dict_bob = Raise EmailException
  /\ email_for env0 template0 dict_carol = Ok (mail carol)
  /\ fst (send_notifications env0 [dict_alice; dict_bob; dict_carol] w)
     = Raise EmailException
  /\ outbox w' = [mail alice]
  /\ last_sent_at (self w') = None
  /\ db w' = [].
Proof.
  cbv zeta. repeat split; by_evaluation.
Qed.

(** C6, amended: on the email channel a delivery that raises is raised to
    the caller of [send_notifications] as it is; the recipients before it
    have their mail, the recipients after it and the channels after it are
    not attempted, and the schedule, [last_sent_at] included, is left as it
    was.  When every delivery to a non-empty audience succeeds (and no SMS
    connector is set) [last_sent_at] is set to the current instant and
    saved. *)
Theorem delivery_failure_propagates env t (w : World) :
  is_set (smtp_connector (self w)) = true ->
  contextual_notification_template (self w) = Some t ->
  (forall pre d post x emails,
     mapM (email_for env t) pre = Ok emails ->
     email_for env t d = Raise x ->
     send_notifications env (pre ++ d :: post) w
     = (Raise x, delivered emails w))
  /\ (forall d ds emails,
        twilio_connector (self w) = None ->
        mapM (email_for env t) (d :: ds) = Ok emails ->
        send_notifications env (d :: ds) w
        = (Ok tt, stamped (delivered emails w))).
Proof.
  intros Hsmtp Ht. split.
  - intros pre d post x emails Hmap Hd. unfold send_notifications.
    unfold mbind at 1, M_bind at 1, get_self at 1. rewrite Hsmtp.
    unfold mbind at 1, M_bind at 1, when at 1.
    rewrite (send_email_notifications_fails env t pre d post x emails w Ht Hmap Hd).
    reflexivity.
  - intros d ds emails Htwilio Hmap. unfold send_notifications.
    unfold mbind at 1, M_bind at 1, get_self at 1. rewrite Hsmtp.
    unfold mbind at 1, M_bind at 1, when at 1.
    rewrite (send_email_notifications_succeeds env t (d :: ds) emails w Ht Hmap).
    cbn [nonempty].
    unfold mbind, M_bind, get_self, when, send_slack_notifications, mret, M_ret.
    simpl. rewrite Htwilio. simpl.
    destruct (slack_connector (self w)); reflexivity.
Qed.

Lemma delivery_failure_propagates_witness :
  send_notifications env0 ([dict_alice] ++ dict_bob :: [dict_carol])
    (world_of two_channel_schedule (5 * day))
  = (Raise EmailException,
     delivered [mail alice] (world_of two_channel_schedule (5 * day)))
  /\ send_notifications env0 [dict_alice; dict_carol]
       (world_of email_schedule (5 * day))
     = (Ok tt,
        stamped (delivered [mail alice; mail carol]
                   (world_of email_schedule (5 * day)))).
Proof.
  split.
  - apply (proj1 (delivery_failure_propagates env0 template0
                    (world_of two_channel_schedule (5 * day)) eq_refl eq_refl)).
    + by_evaluation.
    + by_evaluation.
  - apply (proj2 (delivery_failure_propagates env0 template0
                    (world_of email_schedule (5 * day)) eq_refl eq_refl)).
    + reflexivity.
    + by_evaluation.
Defined.

(** ** Two runs end to end *)

(** A one-shot job schedule for the staff, a job with two employees: the
    dispatch mails both, deactivates the schedule and stamps
    [last_sent_at]. *)
Example one_shot_job_dispatch :
  run_notification_schedule env_ok orm0 (Some job0) None
    (world_of staff_email_schedule (5 * day))
  = (Ok tt,
     {| self := set_last_sent (Some (5 * day))
                  (set_active false staff_email_schedule);
        clock := 5 * day;
        db := [SaveActive false; SaveLastSentAt (5 * day)];
        outbox := [mail alice; mail bob] |}).
Proof. by_evaluation. Qed.

(** A subject group with one subject and no job, [subjects_not_booked] set:
    the subject-group builder yields one dict, with the recipient and the
    subject group. *)
Example unbooked_subject_without_job :
  gaia_users_models_for_subject_group orm0 not_booked_group_schedule group1
  = Ok [ {[ "gaia_user" := inst_gaia_user dave;
            "subject_group" := inst_subject_group group1 ]} ].
Proof. by_evaluation. Qed.


(** * Further properties *)

(** ** Trigger windows *)

(** X1: while the start condition is not met the evaluation reports not
    eligible and leaves the schedule and the database as they are, for a job
    root and for a subject-group root. *)
Theorem not_started_changes_nothing (w : World) (job : Job) (g : SubjectGroup) :
  (job_started (self w) job (clock w) = false ->
   job_within_notification_window job w = (Ok false, w))
  /\ (subject_group_started (self w) g (clock w) = false ->
      subject_group_within_notification_window g w = (Ok false, w)).
Proof.
  split; intros Hstart.
  - rewrite job_within_notification_window_spec. unfold job_decision.
    cbv zeta. rewrite Hstart. reflexivity.
  - rewrite subject_group_within_notification_window_spec.
    unfold subject_group_decision. cbv zeta. rewrite Hstart. reflexivity.
Qed.

Lemma not_started_changes_nothing_witness :
  job_within_notification_window job0 (world_of before_start_schedule (100 * day))
  = (Ok false, world_of before_start_schedule (100 * day))
  /\ subject_group_within_notification_window group_without_photos
       (world_of group_schedule (5 * day))
     = (Ok false, world_of group_schedule (5 * day)).
Proof.
  split.
  - apply (proj1 (not_started_changes_nothing
                    (world_of before_start_schedule (100 * day)) job0 group0)).
    reflexivity.
  - apply (proj2 (not_started_changes_nothing
                    (world_of group_schedule (5 * day)) job0 group_without_photos)).
    reflexivity.
Defined.

(** X2: once the end condition is reached the schedule is not eligible and
    is deactivated: on a subject-group root whether it recurs or not, on a
    job root when it does not recur. *)
Theorem ended_is_deactivated (w : World) (job : Job) (g : SubjectGroup) :
  (subject_group_started (self w) g (clock w) = true ->
   subject_group_ended (self w) g (clock w) = true ->
   subject_group_within_notification_window g w = (Ok false, deactivated w))
  /\ (truthy (recurring (self w)) = false ->
      job_started (self w) job (clock w) = true ->
      job_ended (self w) job (clock w) = true ->
      job_within_notification_window job w = (Ok false, deactivated w)).
Proof.
  split.
  - intros Hstart Hend. rewrite subject_group_within_notification_window_spec.
    unfold subject_group_decision. cbv zeta. rewrite Hstart, Hend. reflexivity.
  - intros Hrec Hstart Hend. rewrite job_within_notification_window_spec.
    unfold job_decision. cbv zeta. rewrite Hstart, Hend, Hrec. reflexivity.
Qed.

Lemma ended_is_deactivated_witness :
  subject_group_within_notification_window group0
    (world_of ended_group_schedule (5 * day))
  = (Ok false, deactivated (world_of ended_group_schedule (5 * day)))
  /\ job_within_notification_window job0
       (world_of until_start_schedule (100 * day + 1))
     = (Ok false, deactivated (world_of until_start_schedule (100 * day + 1))).
Proof.
  split.
  - apply (proj1 (ended_is_deactivated
                    (world_of ended_group_schedule (5 * day)) job0 group0));
      reflexivity.
  - apply (proj2 (ended_is_deactivated
                    (world_of until_start_schedule (100 * day + 1)) job0 group0));
      reflexivity.
Defined.



(** X4: an evaluation leaves the world as it is or deactivates the schedule;
    it writes no other field, and it never activates a schedule. *)
Theorem evaluators_write_only_active (w : World) (job : Job) (g : SubjectGroup) :
  (snd (job_within_notification_window job w) = w
   \/ snd (job_within_notification_window job w) = deactivated w)
  /\ (snd (subject_group_within_notification_window g w) = w
      \/ snd (subject_group_within_notification_window g w) = deactivated w).
Proof.
  rewrite job_within_notification_window_spec,
    subject_group_within_notification_window_spec.
  unfold job_decision, subject_group_decision. cbv zeta. split.
  - destruct (job_started (self w) job (clock w)),
      (job_ended (self w) job (clock w)), (truthy (recurring (self w)));
      try destruct (spacing (self w) (clock w)); simpl; auto.
  - destruct (subject_group_started (self w) g (clock w)),
      (subject_group_ended (self w) g (clock w)),
      (truthy (recurring (self w))), (last_sent_at (self w)); simpl; auto.
Qed.

(** X5: with a unit outside the five choices and [last_sent_at] set, the
    recurrence check raises [UnboundLocalError], and so does the evaluation
    of a recurring subject-group schedule whose window is open; the schedule
    is left as it was. *)
Theorem unknown_unit_raises (w : World) (g : SubjectGroup) (sent : Z) :
  recurrence_delta (self w) ∉ recurrence_units ->
  last_sent_at (self w) = Some sent ->
  within_recurring_notification_window w = (Raise UnboundLocalError, w)
  /\ (truthy (recurring (self w)) = true ->
      subject_group_started (self w) g (clock w) = true ->
      subject_group_ended (self w) g (clock w) = false ->
      subject_group_within_notification_window g w
      = (Raise UnboundLocalError, w)).
Proof.
  intros Hunit Hsent.
  assert (Hspacing : spacing (self w) (clock w) = Raise UnboundLocalError).
  { unfold spacing, cadence. rewrite Hsent.
    repeat case_bool_decide; try reflexivity;
      exfalso; apply Hunit; unfold recurrence_units;
      match goal with H : recurrence_delta _ = _ |- _ => rewrite H end;
      set_solver. }
  split.
  - rewrite within_recurring_notification_window_spec, Hspacing. reflexivity.
  - intros Hrec Hstart Hend.
    rewrite subject_group_within_notification_window_spec.
    unfold subject_group_decision. cbv zeta.
    rewrite Hstart, Hend, Hrec, Hspacing. reflexivity.
Qed.

Lemma unknown_unit_raises_witness :
  within_recurring_notification_window
    (world_of fortnightly_group_schedule (11 * day))
  = (Raise UnboundLocalError, world_of fortnightly_group_schedule (11 * day))
  /\ subject_group_within_notification_window group0
       (world_of fortnightly_group_schedule (11 * day))
     = (Raise UnboundLocalError, world_of fortnightly_group_schedule (11 * day)).
Proof.
  assert (Hunit : recurrence_delta fortnightly_group_schedule ∉ recurrence_units)
    by (apply (bool_decide_unpack _); vm_compute; exact I).
  split.
  - apply (proj1 (unknown_unit_raises
                    (world_of fortnightly_group_schedule (11 * day)) group0
                    (10 * day) Hunit eq_refl)).
  - apply (proj2 (unknown_unit_raises
                    (world_of fortnightly_group_schedule (11 * day)) group0
                    (10 * day) Hunit eq_refl)); reflexivity.
Defined.

(** X6: when the cadence is longer than 999999999 days the recurrence check
    raises [OverflowError], also for a schedule that was never sent. *)
Theorem oversized_cadence_raises (w : World) (d : Z) :
  cadence (self w) = Some d ->
  999999999 < Z.abs (d / us_per_day) ->
  within_recurring_notification_window w = (Raise OverflowError, w).
Proof.
  intros Hcad Hbig. rewrite within_recurring_notification_window_spec.
  unfold spacing. rewrite Hcad.
  destruct (Z.gtb_spec (Z.abs (d / us_per_day)) 999999999); [reflexivity|lia].
Qed.

Lemma oversized_cadence_raises_witness :
  last_sent_at oversized_group_schedule = None
  /\ within_recurring_notification_window
       (world_of oversized_group_schedule (5 * day))
     = (Raise OverflowError, world_of oversized_group_schedule (5 * day)).
Proof.
  split; [reflexivity|].
  apply (oversized_cadence_raises (world_of oversized_group_schedule (5 * day))
           (1000000000 * us_per_day) eq_refl).
  vm_compute. reflexivity.
Defined.

(** ** Audience *)

Lemma for_each_id {A B} (body : B -> A -> result B) xs :
  (forall acc x, body acc x = Ok acc) -> forall acc, for_each xs body acc = Ok acc.
Proof.
  intros Hbody. induction xs as [|x xs IH]; intros acc; simpl; [reflexivity|].
  rewrite Hbody. apply IH.
Qed.

Lemma any_client_filter_off s c :
  any_client_filter s = false ->
  truthy (clients_persons s) = false /\ contacts_filter s c = false.
Proof.
  unfold any_client_filter, contacts_filter.
  destruct (truthy (clients_persons s)), (truthy (clients_schools s)),
    (truthy (clients_commercial_others s)); simpl; intros; try discriminate;
    auto.
Qed.

(** X7: a schedule with every audience filter unset has an empty audience,
    for every job and every subject group; the job builder then reads no
    attribute of its root, so it also returns the empty list when it is
    handed a subject group. *)
Theorem no_filter_no_audience orm s :
  no_filter s ->
  (forall job : JobLike, job_gaia_users_models orm s job = Ok [])
  /\ (forall g, gaia_users_models_for_subject_group orm s g = Ok []).
Proof.
  intros (Hstaff & Hclients & Hsubjects). split.
  - intros job. unfold job_gaia_users_models.
    rewrite Hstaff, Hclients, Hsubjects. reflexivity.
  - intros g. unfold gaia_users_models_for_subject_group. cbv zeta.
    rewrite Hstaff, Hclients, Hsubjects.
    destruct (any_client_filter_off s (subject_group_client g) Hclients)
      as [-> ->].
    rewrite for_each_id by reflexivity. reflexivity.
Qed.

Lemma no_filter_no_audience_witness :
  job_gaia_users_models orm0 job_schedule (job_as_job orm0 job0) = Ok []
  /\ job_gaia_users_models orm0 job_schedule (subject_group_as_job orm0 group0)
     = Ok []
  /\ gaia_users_models_for_subject_group orm0 job_schedule group0 = Ok [].
Proof.
  assert (Hoff : no_filter job_schedule) by (repeat split).
  split; [|split].
  - apply (proj1 (no_filter_no_audience orm0 job_schedule Hoff)).
  - apply (proj1 (no_filter_no_audience orm0 job_schedule Hoff)).
  - apply (proj2 (no_filter_no_audience orm0 job_schedule Hoff)).
Defined.

Lemma context_dict_gaia_user gu sg j se e c :
  context_dict gu sg j se e c !! "gaia_user" = Some (inst_gaia_user gu).
Proof. exact (proj1 (context_dict_lookup gu sg j se e c)). Qed.

Lemma context_dict_job gu sg j se e c :
  context_dict gu sg j se e c !! "job" = j.
Proof. exact (proj1 (proj2 (proj2 (context_dict_lookup gu sg j se e c)))). Qed.

Lemma context_dict_subject gu sg j se e c :
  context_dict gu sg j se e c !! "subject" = None.
Proof.
  exact (proj2 (proj2 (proj2 (proj2 (proj2 (proj2
           (context_dict_lookup gu sg j se e c))))))).
Qed.

Lemma context_dict_well_formed gu sg j se e c :
  well_formed_dict (context_dict gu sg j se e c).
Proof.
  split; [exists gu; exact (context_dict_gaia_user _ _ _ _ _ _)|].
  exact (context_dict_subject _ _ _ _ _ _).
Qed.

(** X8: every dict of an audience that a builder returns names a recipient
    and has no subject slot; the dicts of the job builder carry its root
    under ["job"], those of the subject-group builder carry the subject
    group. *)
Theorem audience_slots orm s :
  (forall (job : JobLike) l,
     job_gaia_users_models orm s job = Ok l ->
     Forall (fun b : bundle =>
               well_formed_dict b /\ b !! "job" = Some (jl_instance job)) l)
  /\ (forall g l,
        gaia_users_models_for_subject_group orm s g = Ok l ->
        Forall (fun b : bundle =>
                  well_formed_dict b
                  /\ b !! "subject_group" = Some (inst_subject_group g)) l).
Proof.
  split.
  - intros job l. unfold job_gaia_users_models, mbind, result_bind. cbv zeta.
    intros H.
    assert (Hnil : Forall (fun b : bundle =>
                             well_formed_dict b
                             /\ b !! "job" = Some (jl_instance job)) [])
      by constructor.
    carry_Forall ltac:(split; [exact (context_dict_well_formed _ _ _ _ _ _)
                              |exact (context_dict_job _ _ _ _ _ _)]);
      assumption.
  - intros g l. unfold gaia_users_models_for_subject_group, mbind, result_bind.
    cbv zeta. intros H.
    assert (Hnil : Forall (fun b : bundle =>
                             well_formed_dict b
                             /\ b !! "subject_group"
                                = Some (inst_subject_group g)) [])
      by constructor.
    carry_Forall ltac:(split; [exact (context_dict_well_formed _ _ _ _ _ _)
                              |exact (context_dict_subject_group _ _ _ _ _ _)]);
      assumption.
Qed.

Lemma audience_slots_witness :
  Forall (fun b : bundle =>
            well_formed_dict b /\ b !! "job" = Some (inst_job job0))
    [ {[ "gaia_user" := inst_gaia_user alice; "job" := inst_job job0;
         "employee" := inst_employee employee_a ]};
      {[ "gaia_user" := inst_gaia_user bob; "job" := inst_job job0;
         "employee" := inst_employee employee_b ]};
      {[ "gaia_user" := inst_gaia_user carol; "job" := inst_job job0 ]} ].
Proof.
  apply (proj1 (audience_slots orm0 staff_and_persons_schedule)
           (job_as_job orm0 job0)).
  by_evaluation.
Defined.

Lemma unique_gaia_users_models_keeps (d : bundle) l gu sg j se e c subj l' :
  d ∈ l -> unique_gaia_users_models l gu sg j se e c subj = Ok l' -> d ∈ l'.
Proof.
  intros Hin Hrun. destruct subj; [discriminate|].
  apply unique_gaia_users_models_spec in Hrun as [_ [[-> _]|[-> _]]];
    [exact Hin|].
  apply elem_of_app. left. exact Hin.
Qed.

Lemma unique_gaia_users_models_adds l gu sg j se e c subj l' :
  unique_gaia_users_models l gu sg j se e c subj = Ok l' ->
  context_dict gu sg j se e c ∈ l'.
Proof.
  intros Hrun. destruct subj; [discriminate|].
  apply unique_gaia_users_models_spec in Hrun as [Hin _]. exact Hin.
Qed.

(** Walks an equation [builder = Ok l] down to the calls of
    [unique_gaia_users_models], carrying the membership of one dict. *)
Ltac carry_member :=
  repeat match goal with
    | H : Raise _ = Ok _ |- _ => discriminate H
    | H : Ok _ = Ok _ |- _ => injection H as H; subst
    | H : (if ?b then _ else _) = Ok _ |- _ => destruct b
    | H : match ?r with Ok _ => _ | Raise _ => _ end = Ok _ |- _ =>
        let E := fresh "E" in destruct r eqn:E
    | H : unique_gaia_users_models ?acc _ _ _ _ _ _ _ = Ok ?a,
      Hn : ?d ∈ ?acc |- _ =>
        apply (unique_gaia_users_models_keeps _ _ _ _ _ _ _ _ _ _ Hn) in H
    | H : for_each ?xs ?body ?acc = Ok ?a, Hn : ?d ∈ ?acc |- _ =>
        apply (for_each_preserves (fun acc : list bundle => d ∈ acc) body xs) in H;
        [ cbv beta in H | clear H; intros; carry_member; assumption | exact Hn ]
    end.

Lemma for_each_member {A} (body : list bundle -> A -> result (list bundle))
    xs x (d : bundle) :
  x ∈ xs ->
  (forall acc acc', body acc x = Ok acc' -> d ∈ acc') ->
  (forall acc y acc', d ∈ acc -> body acc y = Ok acc' -> d ∈ acc') ->
  forall acc acc', for_each xs body acc = Ok acc' -> d ∈ acc'.
Proof.
  intros Hin Hadds Hkeeps. induction xs as [|y xs IH]; [inversion Hin|].
  intros acc acc' Hrun. cbn [for_each] in Hrun.
  unfold mbind, result_bind in Hrun.
  destruct (body acc y) as [acc1|] eqn:Hy; [|discriminate].
  apply elem_of_cons in Hin as [->|Hin].
  - apply (for_each_preserves (fun acc : list bundle => d ∈ acc) body xs)
      with (acc := acc1); eauto.
  - eapply IH; eauto.
Qed.

(** X9: when the job builder returns, the audience holds a dict for every
    employee of the job if [employees] is set, for the recipient of every
    person client if [clients_persons] is set, and for every contact of
    every client that passes the school or commercial filter. *)
Theorem job_audience_is_complete orm s j l :
  job_gaia_users_models orm s (job_as_job orm j) = Ok l ->
  (truthy (employees s) = true ->
   forall e, e ∈ job_employees orm j ->
     context_dict (employee_gaia_user e) None (Some (inst_job j)) None
       (Some (inst_employee e)) None ∈ l)
  /\ (truthy (clients_persons s) = true ->
      forall c, c ∈ job_clients orm j -> client_category c = "Person" ->
        context_dict (client_gaia_user c) None (Some (inst_job j)) None None None
          ∈ l)
  /\ (forall c, c ∈ job_clients orm j -> contacts_filter s c = true ->
      forall gu, gu ∈ client_contacts c ->
        context_dict gu None (Some (inst_job j)) None None (Some (inst_client c))
          ∈ l).
Proof.
  unfold job_gaia_users_models, mbind, result_bind. cbv zeta.
  cbn [job_as_job jl_instance jl_employees jl_clients jl_subject_groups
       jl_subjects_session].
  intros H.
  match type of H with
  | match ?r with Ok _ => _ | Raise _ => _ end = _ =>
      destruct r as [l1|] eqn:E1; [|discriminate]
  end.
  match type of H with
  | match ?r with Ok _ => _ | Raise _ => _ end = _ =>
      destruct r as [l2|] eqn:E2; [|discriminate]
  end.
  split; [|split].
  - intros Hflag e He. rewrite Hflag in E1.
    assert (Hin : context_dict (employee_gaia_user e) None (Some (inst_job j))
                    None (Some (inst_employee e)) None ∈ l1).
    { revert E1. apply (for_each_member _ _ e); [exact He| |].
      - intros acc acc' Hrun. exact (unique_gaia_users_models_adds _ _ _ _ _ _ _ _ _ Hrun).
      - intros acc y acc' Hacc Hrun.
        exact (unique_gaia_users_models_keeps _ _ _ _ _ _ _ _ _ _ Hacc Hrun). }
    carry_member; assumption.
  - intros Hflag c Hc Hcat.
    assert (Hany : any_client_filter s = true)
      by (unfold any_client_filter; rewrite Hflag; reflexivity).
    rewrite Hany in E2.
    assert (Hin : context_dict (client_gaia_user c) None (Some (inst_job j))
                    None None None ∈ l2).
    { revert E2. apply (for_each_member _ _ c); [exact Hc| |].
      - intros acc acc' Hrun. rewrite Hflag in Hrun.
        unfold is_category in Hrun at 1.
        rewrite (bool_decide_eq_true_2 _ Hcat) in Hrun. cbn [andb] in Hrun.
        destruct (unique_gaia_users_models acc (client_gaia_user c) None
                    (Some (inst_job j)) None None None None) as [acc1|] eqn:E;
          [|discriminate].
        apply unique_gaia_users_models_adds in E.
        carry_member; assumption.
      - intros acc y acc' Hacc Hrun. carry_member; assumption. }
    carry_member; assumption.
  - intros c Hc Hfilter gu Hgu.
    assert (Hany : any_client_filter s = true).
    { unfold any_client_filter. unfold contacts_filter in Hfilter.
      destruct (truthy (clients_persons s)), (truthy (clients_schools s)),
        (truthy (clients_commercial_others s)); cbn [andb orb] in *;
        try reflexivity; discriminate. }
    rewrite Hany in E2.
    assert (Hin : context_dict gu None (Some (inst_job j)) None None
                    (Some (inst_client c)) ∈ l2).
    { revert E2. apply (for_each_member _ _ c); [exact Hc| |].
      - intros acc acc' Hrun. rewrite Hfilter in Hrun.
        match type of Hrun with
        | match ?r with Ok _ => _ | Raise _ => _ end = _ =>
            destruct r as [acc1|]; [|discriminate]
        end.
        revert Hrun. apply (for_each_member _ _ gu); [exact Hgu| |].
        + intros acc0 acc0' Hrun.
          exact (unique_gaia_users_models_adds _ _ _ _ _ _ _ _ _ Hrun).
        + intros acc0 y acc0' Hacc Hrun.
          exact (unique_gaia_users_models_keeps _ _ _ _ _ _ _ _ _ _ Hacc Hrun).
      - intros acc y acc' Hacc Hrun. carry_member; assumption. }
    carry_member; assumption.
Qed.

Lemma job_audience_is_complete_witness :
  context_dict alice None (Some (inst_job job0)) None
    (Some (inst_employee employee_a)) None
  ∈ [ ({[ "gaia_user" := inst_gaia_user alice; "job" := inst_job job0;
          "employee" := inst_employee employee_a ]} : bundle);
      {[ "gaia_user" := inst_gaia_user bob; "job" := inst_job job0;
         "employee" := inst_employee employee_b ]};
      {[ "gaia_user" := inst_gaia_user carol; "job" := inst_job job0 ]} ].
Proof.
  refine (proj1 (job_audience_is_complete orm0 staff_and_persons_schedule job0
                   _ _) eq_refl employee_a _).
  - by_evaluation.
  - simpl. apply elem_of_cons. left. reflexivity.
Defined.

(** X10: for a subject group without a job the builder returns, and with
    [subjects_not_booked] set the audience holds, for every subject of the
    group, a dict with the subject's recipient and the subject group; with
    [subjects_parents_not_booked] set it holds one for every parent. *)
Theorem subjects_without_job_are_notified orm s g :
  subject_group_jobs orm g = [] ->
  exists l,
    gaia_users_models_for_subject_group orm s g = Ok l
    /\ (truthy (subjects_not_booked s) = true ->
        forall subject, subject ∈ subject_group_subjects orm g ->
          context_dict (subject_gaia_user subject)
            (Some (inst_subject_group g)) None None None None ∈ l)
    /\ (truthy (subjects_parents_not_booked s) = true ->
        forall subject, subject ∈ subject_group_subjects orm g ->
        forall parent, parent ∈ subject_parents subject ->
          context_dict parent (Some (inst_subject_group g)) None None None None
            ∈ l).
Proof.
  intros Hjobs.
  destruct (gaia_users_models_for_subject_group_returns orm s g (or_intror Hjobs))
    as [l Hl].
  exists l. split; [exact Hl|].
  revert Hl. unfold gaia_users_models_for_subject_group, mbind, result_bind.
  cbv zeta. rewrite Hjobs. cbn [for_each nonempty negb]. intros H.
  match type of H with
  | match ?r with Ok _ => _ | Raise _ => _ end = _ =>
      destruct r as [l1|] eqn:E1; [|discriminate]
  end.
  match type of H with
  | match ?r with Ok _ => _ | Raise _ => _ end = _ =>
      destruct r as [l2|] eqn:E2; [|discriminate]
  end.
  split.
  - intros Hflag subject Hsubject.
    assert (Hany : any_subject_filter s = true).
    { unfold any_subject_filter. rewrite Hflag.
      destruct (truthy (subjects_booked s)), (truthy (subjects_parents_booked s));
        reflexivity. }
    rewrite Hany in H. revert H.
    apply (for_each_member _ _ subject); [exact Hsubject| |].
    + intros acc acc' Hrun. rewrite Hflag in Hrun.
      match type of Hrun with
      | match ?r with Ok _ => _ | Raise _ => _ end = _ =>
          destruct r as [acc1|] eqn:E; [|discriminate]
      end.
      apply unique_gaia_users_models_adds in E. carry_member; assumption.
    + intros acc y acc' Hacc Hrun. carry_member; assumption.
  - intros Hflag subject Hsubject parent Hparent.
    assert (Hany : any_subject_filter s = true).
    { unfold any_subject_filter. rewrite Hflag.
      destruct (truthy (subjects_booked s)), (truthy (subjects_parents_booked s)),
        (truthy (subjects_not_booked s)); reflexivity. }
    rewrite Hany in H. revert H.
    apply (for_each_member _ _ subject); [exact Hsubject| |].
    + intros acc acc' Hrun. rewrite Hflag in Hrun.
      match type of Hrun with
      | match ?r with Ok _ => _ | Raise _ => _ end = _ =>
          destruct r as [acc1|] eqn:E; [|discriminate]
      end.
      revert Hrun. apply (for_each_member _ _ parent); [exact Hparent| |].
      * intros acc0 acc0' Hrun.
        exact (unique_gaia_users_models_adds _ _ _ _ _ _ _ _ _ Hrun).
      * intros acc0 y acc0' Hacc Hrun.
        exact (unique_gaia_users_models_keeps _ _ _ _ _ _ _ _ _ _ Hacc Hrun).
    + intros acc y acc' Hacc Hrun. carry_member; assumption.
Qed.

Lemma subjects_without_job_are_notified_witness :
  exists l,
    gaia_users_models_for_subject_group orm0 not_booked_group_schedule group1
    = Ok l
    /\ context_dict dave (Some (inst_subject_group group1)) None None None None
       ∈ l.
Proof.
  destruct (subjects_without_job_are_notified orm0 not_booked_group_schedule
              group1 eq_refl) as (l & Hl & Hsubjects & _).
  exists l. split; [exact Hl|].
  apply (Hsubjects eq_refl subject0).
  simpl. apply elem_of_cons. left. reflexivity.
Defined.

(** The only exception the subject-group builder raises is the [TypeError]
    of [unique_gaia_users_models]. *)
Lemma gaia_users_models_for_subject_group_raise orm s g e :
  gaia_users_models_for_subject_group orm s g = Raise e -> e = TypeError.
Proof.
  unfold gaia_users_models_for_subject_group, mbind, result_bind. cbv zeta.
  intros H. trace_raise; reflexivity.
Qed.

Lemma raises_TypeError {A} (r : result A) :
  raises r = true -> (forall e, r = Raise e -> e = TypeError) ->
  r = Raise TypeError.
Proof.
  intros Hraises Honly. destruct r as [a|e]; [discriminate|].
  rewrite (Honly e eq_refl). reflexivity.
Qed.

(** X11: the subject filters raise [TypeError] wherever a subject meets a
    job.  The job builder raises for a subject without a booked session when
    [subjects_not_booked] is set; the subject-group builder raises as soon as
    the group has a job and a subject that is booked on it with
    [subjects_booked] set, or not booked on it with [subjects_not_booked]
    set. *)
Theorem subject_on_a_job_raises_TypeError orm s (j : Job) (g : SubjectGroup)
    (subject : Subject) :
  subject ∈ subject_group_subjects orm g ->
  (is_set (job_subjects_session orm j subject) = true
   /\ truthy (subjects_booked s) = true
   \/ is_set (job_subjects_session orm j subject) = false
      /\ truthy (subjects_not_booked s) = true) ->
  (g ∈ job_subject_groups orm j ->
   job_gaia_users_models orm s (job_as_job orm j) = Raise TypeError)
  /\ (j ∈ subject_group_jobs orm g ->
      gaia_users_models_for_subject_group orm s g = Raise TypeError).
Proof.
  intros Hsubject Hcase.
  assert (Hany : any_subject_filter s = true).
  { unfold any_subject_filter.
    destruct Hcase as [[_ ->]|[_ ->]];
      destruct (truthy (subjects_booked s)), (truthy (subjects_parents_booked s));
      reflexivity. }
  split.
  - intros Hg. apply raises_TypeError; [|apply job_gaia_users_models_raise].
    unfold job_gaia_users_models. cbv zeta. rewrite Hany.
    cbn [job_as_job jl_instance jl_employees jl_clients jl_subject_groups
         jl_subjects_session].
    unfold mbind at 1, result_bind at 1.
    match goal with |- context [match ?r with Ok _ => _ | Raise _ => _ end] =>
      destruct r; [|reflexivity] end.
    unfold mbind at 1, result_bind at 1.
    match goal with |- context [match ?r with Ok _ => _ | Raise _ => _ end] =>
      destruct r; [|reflexivity] end.
    unfold mbind at 1, result_bind at 1.
    apply (for_each_raises _ _ g Hg). intros acc.
    apply (for_each_raises _ _ subject Hsubject). intros acc'.
    unfold mbind at 1, result_bind at 1.
    destruct Hcase as [[Hbooked Hflag]|[Hbooked Hflag]];
      destruct (job_subjects_session orm j subject); try discriminate;
      rewrite Hflag; reflexivity.
  - intros Hj.
    apply raises_TypeError; [|apply gaia_users_models_for_subject_group_raise].
    unfold gaia_users_models_for_subject_group. cbv zeta. rewrite Hany.
    unfold mbind at 1, result_bind at 1.
    match goal with |- context [match ?r with Ok _ => _ | Raise _ => _ end] =>
      destruct r; [|reflexivity] end.
    unfold mbind at 1, result_bind at 1.
    match goal with |- context [match ?r with Ok _ => _ | Raise _ => _ end] =>
      destruct r; [|reflexivity] end.
    unfold mbind at 1, result_bind at 1.
    match goal with |- context [match ?r with Ok _ => _ | Raise _ => _ end] =>
      destruct r; [|reflexivity] end.
    apply (for_each_raises _ _ subject Hsubject). intros acc.
    destruct (subject_group_jobs orm g) as [|j0 jobs] eqn:Hjobs;
      [inversion Hj|].
    cbn [nonempty negb]. rewrite <- Hjobs.
    apply (for_each_raises _ _ j); [rewrite Hjobs; exact Hj|]. intros acc'.
    destruct Hcase as [[Hbooked Hflag]|[Hbooked Hflag]];
      destruct (job_subjects_session orm j subject); try discriminate;
      rewrite Hflag; reflexivity.
Qed.

Lemma subject_on_a_job_raises_TypeError_witness :
  job_gaia_users_models orm0 booked_schedule (job_as_job orm0 job0)
  = Raise TypeError
  /\ gaia_users_models_for_subject_group orm0 booked_schedule group0
     = Raise TypeError.
Proof.
  assert (Hsubject : subject0 ∈ subject_group_subjects orm0 group0)
    by (simpl; apply elem_of_cons; left; reflexivity).
  split.
  - apply (proj1 (subject_on_a_job_raises_TypeError orm0 booked_schedule job0
                    group0 subject0 Hsubject (or_introl (conj eq_refl eq_refl)))).
    simpl. apply elem_of_cons. left. reflexivity.
  - apply (proj2 (subject_on_a_job_raises_TypeError orm0 booked_schedule job0
                    group0 subject0 Hsubject (or_introl (conj eq_refl eq_refl)))).
    simpl. apply elem_of_cons. left. reflexivity.
Defined.

(** ** Template context *)

(** A string without the separator splits into itself alone; with it there
    is a second piece. *)
Lemma split_second_piece (sep : ascii) (s : string) :
  split sep s !! 1%nat = None <-> contains (String sep EmptyString) s = false.
Proof.
  assert (Hne : forall s, split sep s <> []).
  { intros s0. destruct s0 as [|c rest]; simpl; [discriminate|].
    case_bool_decide; [discriminate|]. destruct (split sep rest); discriminate. }
  induction s as [|c rest IH]; simpl.
  - split; reflexivity.
  - case_bool_decide as Hc.
    + subst c. destruct (ascii_dec sep sep) as [_|Hneq]; [|contradiction].
      simpl. destruct (split sep rest) eqn:Hrest; [destruct (Hne _ Hrest)|].
      replace (String.prefix "" rest) with true by (destruct rest; reflexivity).
      simpl. split; discriminate.
    + destruct (ascii_dec sep c) as [Heq|_]; [subst; contradiction|]. simpl.
      rewrite <- IH. destruct (split sep rest) as [|p ps] eqn:Hrest;
        [destruct (Hne _ Hrest)|].
      simpl. reflexivity.
Qed.

(** X12: an entry without the entity marker is copied as it is: the
    finished context maps its key to the reference string itself, whatever
    the dict holds. *)
Theorem literal_is_copied env (b : option bundle) (key ref : string) t m :
  contains "@" ref = false ->
  (key, ref) ∈ context t ->
  NoDup (context t).*1 ->
  dynamic_context env t b = Ok m ->
  m !! key = Some (VStr ref).
Proof.
  intros Hlit Hin Hnd Hrun. unfold dynamic_context in Hrun.
  destruct (for_each_items_lookup _ _ _ _ _ Hnd Hin _ _ Hrun)
    as (before & after & Hstep & _ & ->).
  unfold dynamic_context_item in Hstep. rewrite Hlit in Hstep.
  injection Hstep as <-. apply lookup_insert_eq.
Qed.

Lemma literal_is_copied_witness :
  ({[ "email_subject" := VStr "Your photos";
      "first_name" := VStr "first_name";
      "session_time" := VNone ]} : gmap string value) !! "email_subject"
  = Some (VStr "Your photos").
Proof.
  apply (literal_is_copied env0 (Some staff_dict) "email_subject" "Your photos"
           template0).
  - reflexivity.
  - by_evaluation.
  - by_evaluation.
  - by_evaluation.
Defined.

(** X13: an entry whose reference is resolved against a slot the dict has
    is mapped to the value of the named field of that instance, the piece
    between the first and the second dot of the reference; when reading the
    field raises, the resolution of the entry raises the same exception. *)
Theorem present_slot_reads_field env (b : bundle) (key ref slot field : string)
    (model : instance) :
  slot_of ref = Some slot ->
  b !! slot = Some model ->
  split "." ref !! 1%nat = Some field ->
  (forall v t m,
     getattr env model field = Ok v ->
     (key, ref) ∈ context t -> NoDup (context t).*1 ->
     dynamic_context env t (Some b) = Ok m ->
     m !! key = Some v)
  /\ (forall e acc,
        getattr env model field = Raise e ->
        dynamic_context_item env b acc (key, ref) = Raise e).
Proof.
  intros Hslot Hmodel Hfield.
  assert (Hitem : forall acc,
             dynamic_context_item env b acc (key, ref)
             = v ← getattr env model field; Ok (<[ key := v ]> acc)).
  { intros acc. rewrite (dynamic_context_item_slot _ _ _ _ _ slot Hslot).
    unfold get_model_field. rewrite Hfield, Hmodel. reflexivity. }
  split.
  - intros v t m Hget Hin Hnd Hrun. unfold dynamic_context in Hrun.
    destruct (for_each_items_lookup _ _ _ _ _ Hnd Hin _ _ Hrun)
      as (before & after & Hstep & _ & ->).
    rewrite Hitem, Hget in Hstep. injection Hstep as <-. apply lookup_insert_eq.
  - intros e acc Hget. rewrite Hitem, Hget. reflexivity.
Qed.

Lemma present_slot_reads_field_witness :
  ({[ "email_subject" := VStr "Your photos";
      "first_name" := VStr "first_name";
      "session_time" := VNone ]} : gmap string value) !! "first_name"
  = Some (VStr "first_name").
Proof.
  apply (proj1 (present_slot_reads_field env0 staff_dict "first_name"
                  "@GaiaUser.first_name" "gaia_user" "first_name"
                  (inst_gaia_user alice) eq_refl eq_refl eq_refl)
           (VStr "first_name") template0).
  - reflexivity.
  - by_evaluation.
  - by_evaluation.
  - by_evaluation.
Defined.

(** X14: a reference that has the entity marker and names a known kind but
    contains no dot raises [IndexError] whether its slot is in the dict or
    not, and a template with such an entry cannot be resolved: the
    resolution raises for every dict. *)
Theorem reference_without_dot_raises env (key ref slot : string) :
  slot_of ref = Some slot ->
  contains "." ref = false ->
  (forall (b : bundle) acc,
     dynamic_context_item env b acc (key, ref) = Raise IndexError)
  /\ (forall t (b : option bundle),
        (key, ref) ∈ context t -> raises (dynamic_context env t b) = true).
Proof.
  intros Hslot Hdot.
  assert (Hitem : forall (b : bundle) acc,
             dynamic_context_item env b acc (key, ref) = Raise IndexError).
  { intros b acc. rewrite (dynamic_context_item_slot _ _ _ _ _ slot Hslot).
    unfold get_model_field.
    rewrite (proj2 (split_second_piece "." ref) Hdot). reflexivity. }
  split; [exact Hitem|].
  intros t b Hin. unfold dynamic_context.
  apply (for_each_raises _ _ (key, ref) Hin). intros acc.
  rewrite Hitem. reflexivity.
Qed.

Lemma reference_without_dot_raises_witness :
  dynamic_context_item env0 staff_dict ∅ ("recipient", "@GaiaUser")
  = Raise IndexError.
Proof.
  apply (proj1 (reference_without_dot_raises env0 "recipient" "@GaiaUser"
                  "gaia_user" eq_refl eq_refl)).
Defined.

(** X15: the finished context has entries under keys of the template only. *)
Theorem context_keys_come_from_template env t (b : option bundle) m (key : string) :
  dynamic_context env t b = Ok m ->
  key ∉ (context t).*1 ->
  m !! key = None.
Proof.
  intros Hrun Hnotin. unfold dynamic_context in Hrun.
  rewrite (for_each_items_other _ _ _ _ _ _ Hrun Hnotin). apply lookup_empty.
Qed.

Lemma context_keys_come_from_template_witness :
  ({[ "email_subject" := VStr "Your photos";
      "first_name" := VStr "first_name";
      "session_time" := VNone ]} : gmap string value) !! "job" = None.
Proof.
  apply (context_keys_come_from_template env0 template0 (Some staff_dict)).
  - by_evaluation.
  - apply (bool_decide_unpack _). vm_compute. exact I.
Defined.

(** ** Dispatch *)

Lemma same_settings_refl s : same_settings s s.
Proof. reflexivity. Qed.

Lemma evolves_refl w : evolves w w.
Proof. repeat split; auto. Qed.

Lemma evolves_trans w1 w2 w3 : evolves w1 w2 -> evolves w2 w3 -> evolves w1 w3.
Proof.
  intros (Hs & Hc & Ha & Hl & Hd & Ho) (Hs' & Hc' & Ha' & Hl' & Hd' & Ho').
  unfold evolves, same_settings in *. repeat split.
  - congruence.
  - congruence.
  - destruct Ha as [Ha|Ha], Ha' as [Ha'|Ha']; [left|right|right|right];
      congruence.
  - destruct Hl as [Hl|Hl], Hl' as [Hl'|Hl']; [left|right|right|right];
      congruence.
  - etransitivity; eassumption.
  - etransitivity; eassumption.
Qed.

Lemma evolves_deactivated w : evolves w (deactivated w).
Proof.
  repeat split; simpl; auto. apply prefix_app_r. reflexivity.
Qed.

Lemma evolves_stamped w : evolves w (stamped w).
Proof.
  repeat split; simpl; auto. apply prefix_app_r. reflexivity.
Qed.

Lemma evolves_delivered emails w : evolves w (delivered emails w).
Proof.
  repeat split; simpl; auto. apply prefix_app_r. reflexivity.
Qed.

Lemma keeps_ret {A} (a : A) : keeps (mret a).
Proof. intros w. apply evolves_refl. Qed.

Lemma keeps_lift {A} (r : result A) : keeps (lift r).
Proof. intros w. apply evolves_refl. Qed.

Lemma keeps_get_self : keeps get_self.
Proof. intros w. apply evolves_refl. Qed.

Lemma keeps_bind {A B} (m : M A) (f : A -> M B) :
  keeps m -> (forall a, keeps (f a)) -> keeps (m ≫= f).
Proof.
  intros Hm Hf w. unfold mbind, M_bind. specialize (Hm w).
  destruct (m w) as [[a|e] w1]; simpl in *; [|exact Hm].
  eapply evolves_trans; [exact Hm|apply Hf].
Qed.

Lemma keeps_when (b : bool) (m : M unit) : keeps m -> keeps (when b m).
Proof. intros Hm. destruct b; [exact Hm|apply keeps_ret]. Qed.

Lemma keeps_for_each_M {A B} (body : B -> A -> M B) xs :
  (forall acc x, keeps (body acc x)) -> forall acc, keeps (for_each_M xs body acc).
Proof.
  intros Hbody. induction xs as [|x xs IH]; intros acc; simpl.
  - apply keeps_ret.
  - apply keeps_bind; [apply Hbody|apply IH].
Qed.

Lemma keeps_set_last_sent_at : keeps set_last_sent_at.
Proof. intros w. apply (evolves_stamped w). Qed.

(** What an evaluation does to the world. *)
Lemma evaluation_outcome (w : World) (job : Job) (g : SubjectGroup) :
  (snd (job_within_notification_window job w) = w
   \/ snd (job_within_notification_window job w) = deactivated w)
  /\ (snd (subject_group_within_notification_window g w) = w
      \/ snd (subject_group_within_notification_window g w) = deactivated w).
Proof.
  rewrite job_within_notification_window_spec,
    subject_group_within_notification_window_spec.
  unfold job_decision, subject_group_decision. cbv zeta. split.
  - destruct (job_started (self w) job (clock w)),
      (job_ended (self w) job (clock w)), (truthy (recurring (self w)));
      try destruct (spacing (self w) (clock w)); simpl; auto.
  - destruct (subject_group_started (self w) g (clock w)),
      (subject_group_ended (self w) g (clock w)),
      (truthy (recurring (self w))), (last_sent_at (self w)); simpl; auto.
Qed.

Lemma keeps_job_within_notification_window job :
  keeps (job_within_notification_window job).
Proof.
  intros w.
  destruct (proj1 (evaluation_outcome w job group0)) as [-> | ->];
    [apply evolves_refl|apply evolves_deactivated].
Qed.

Lemma keeps_subject_group_within_notification_window g :
  keeps (subject_group_within_notification_window g).
Proof.
  intros w.
  destruct (proj2 (evaluation_outcome w job0 g)) as [-> | ->];
    [apply evolves_refl|apply evolves_deactivated].
Qed.

Lemma keeps_smtp_send env d t :
  keeps (smtp_send_contextual_template_notification env d t).
Proof.
  intros w. destruct t as [t|]; [|apply evolves_refl].
  rewrite smtp_send_contextual_template_notification_spec.
  destruct (email_for env t d); [apply evolves_delivered|apply evolves_refl].
Qed.

Ltac show_keeps :=
  repeat first
    [ apply keeps_ret
    | apply keeps_lift
    | apply keeps_get_self
    | apply keeps_set_last_sent_at
    | apply keeps_smtp_send
    | apply keeps_job_within_notification_window
    | apply keeps_subject_group_within_notification_window
    | apply keeps_when
    | apply keeps_for_each_M; intros ? ?
    | apply keeps_bind; [|intros ?]
    | match goal with
      | |- keeps (if ?b then _ else _) => destruct b
      | |- keeps (match ?x with Some _ => _ | None => _ end) => destruct x
      | |- keeps (match ?x with [] => _ | _ :: _ => _ end) => destruct x
      end ].

Lemma keeps_send_notifications env l : keeps (send_notifications env l).
Proof.
  unfold send_notifications, send_email_notifications, send_sms_notifications,
    send_slack_notifications, twilio_send_contextual_template_notification.
  show_keeps.
Qed.

(** X16: whatever a dispatch does and however it ends, it leaves every
    setting of the schedule and the clock as they were; [active] stays or
    becomes false, [last_sent_at] stays or becomes the current instant, and
    earlier saves and mails are kept. *)
Theorem dispatch_writes_only_active_and_last_sent_at env orm
    (job : option Job) (subject_group : option SubjectGroup) (w : World) :
  evolves w (snd (run_notification_schedule env orm job subject_group w)).
Proof.
  revert w. change (keeps (run_notification_schedule env orm job subject_group)).
  unfold run_notification_schedule, resolve_audience. cbv zeta.
  show_keeps; apply keeps_send_notifications.
Qed.

(** X17: with an SMS connector set, a dispatch to a non-empty audience
    raises [AttributeError] on the first dict of the SMS channel: nothing is
    sent on it and it stamps nothing.  An email channel that ran before it
    keeps its mails and its stamp. *)
Theorem sms_channel_raises env (w : World) (d : bundle) (ds : list bundle) :
  is_set (twilio_connector (self w)) = true ->
  (smtp_connector (self w) = None ->
   send_notifications env (d :: ds) w = (Raise AttributeError, w))
  /\ (forall t emails,
        is_set (smtp_connector (self w)) = true ->
        contextual_notification_template (self w) = Some t ->
        mapM (email_for env t) (d :: ds) = Ok emails ->
        send_notifications env (d :: ds) w
        = (Raise AttributeError, stamped (delivered emails w))).
Proof.
  intros Htwilio. split.
  - intros Hsmtp. unfold send_notifications.
    unfold mbind, M_bind, get_self, when, mret, M_ret. rewrite Hsmtp.
    cbn [is_set]. rewrite Htwilio. reflexivity.
  - intros t emails Hsmtp Ht Hmap. unfold send_notifications.
    unfold mbind at 1, M_bind at 1, get_self at 1. rewrite Hsmtp.
    unfold mbind at 1, M_bind at 1, when at 1.
    rewrite (send_email_notifications_succeeds env t (d :: ds) emails w Ht Hmap).
    cbn [nonempty].
    unfold mbind, M_bind, get_self, when, mret, M_ret. simpl.
    rewrite Htwilio. reflexivity.
Qed.

Lemma sms_channel_raises_witness :
  send_notifications env0 [dict_alice; dict_carol] (world_of sms_schedule (5 * day))
  = (Raise AttributeError, world_of sms_schedule (5 * day))
  /\ send_notifications env0 [dict_alice; dict_carol]
       (world_of two_channel_schedule (5 * day))
     = (Raise AttributeError,
        stamped (delivered [mail alice; mail carol]
                   (world_of two_channel_schedule (5 * day)))).
Proof.
  split.
  - apply (proj1 (sms_channel_raises env0 (world_of sms_schedule (5 * day))
                    dict_alice [dict_carol] eq_refl)).
    reflexivity.
  - apply (proj2 (sms_channel_raises env0
                    (world_of two_channel_schedule (5 * day))
                    dict_alice [dict_carol] eq_refl) template0).
    + reflexivity.
    + reflexivity.
    + by_evaluation.
Defined.

(** X18: a dispatch to the empty audience sends nothing and stamps nothing,
    whatever connectors are set; and with neither an email nor an SMS
    connector (a Slack connector or none at all) the same holds for every
    audience. *)
Theorem nothing_to_send env (w : World) :
  send_notifications env [] w = (Ok tt, w)
  /\ (smtp_connector (self w) = None -> twilio_connector (self w) = None ->
      forall l, send_notifications env l w = (Ok tt, w)).
Proof.
  split.
  - unfold send_notifications, send_email_notifications, send_sms_notifications,
      send_slack_notifications.
    unfold mbind, M_bind, get_self, when, mret, M_ret.
    destruct (smtp_connector (self w)); simpl;
      destruct (twilio_connector (self w)); simpl;
      destruct (slack_connector (self w)); reflexivity.
  - intros Hsmtp Htwilio l. unfold send_notifications, send_slack_notifications.
    unfold mbind, M_bind, get_self, when, mret, M_ret.
    rewrite Hsmtp. cbn [is_set]. rewrite Htwilio. cbn [is_set].
    destruct (slack_connector (self w)); reflexivity.
Qed.

Lemma nothing_to_send_witness :
  send_notifications env0 [dict_alice; dict_bob] (world_of slack_schedule (5 * day))
  = (Ok tt, world_of slack_schedule (5 * day)).
Proof.
  apply (proj2 (nothing_to_send env0 (world_of slack_schedule (5 * day)))
           eq_refl eq_refl).
Defined.

(** A dispatch for a job root, by cases on the evaluation and the build. *)
Lemma run_notification_schedule_job env orm j w :
  run_notification_schedule env orm (Some j) None w
  = match job_within_notification_window j w with
    | (Ok true, w1) =>
        match job_gaia_users_models orm (self w1) (job_as_job orm j) with
        | Ok (d :: ds) => send_notifications env (d :: ds) w1
        | Ok [] => (Ok tt, w1)
        | Raise e => (Raise e, w1)
        end
    | (Ok false, w1) => (Ok tt, w1)
    | (Raise e, w1) => (Raise e, w1)
    end.
Proof.
  unfold run_notification_schedule, resolve_audience. cbv zeta.
  unfold mbind at 1 2 3, M_bind at 1 2 3.
  destruct (job_within_notification_window j w) as [[[]|] w1]; try reflexivity.
  unfold mbind, M_bind, get_self, lift, mret, M_ret, fmap, result_fmap.
  destruct (job_gaia_users_models orm (self w1) (job_as_job orm j)) as [[|d ds]|];
    reflexivity.
Qed.

Lemma run_notification_schedule_subject_group env orm g w :
  run_notification_schedule env orm None (Some g) w
  = match subject_group_within_notification_window g w with
    | (Ok true, w1) =>
        match job_gaia_users_models orm (self w1) (subject_group_as_job orm g) with
        | Ok (d :: ds) => send_notifications env (d :: ds) w1
        | Ok [] => (Ok tt, w1)
        | Raise e => (Raise e, w1)
        end
    | (Ok false, w1) => (Ok tt, w1)
    | (Raise e, w1) => (Raise e, w1)
    end.
Proof.
  unfold run_notification_schedule, resolve_audience. cbv zeta.
  unfold mbind at 1 2 3, M_bind at 1 2 3, mret at 1, M_ret at 1.
  destruct (subject_group_within_notification_window g w) as [[[]|] w1];
    try reflexivity.
  unfold mbind, M_bind, get_self, lift, mret, M_ret, fmap, result_fmap.
  destruct (job_gaia_users_models orm (self w1) (subject_group_as_job orm g))
    as [[|d ds]|]; reflexivity.
Qed.

(** X19: while the start condition of the root is not met a dispatch does
    nothing at all: no audience is built, nothing is sent, nothing is
    saved. *)
Theorem not_started_dispatch_does_nothing env orm (w : World) (j : Job)
    (g : SubjectGroup) :
  (job_started (self w) j (clock w) = false ->
   run_notification_schedule env orm (Some j) None w = (Ok tt, w))
  /\ (subject_group_started (self w) g (clock w) = false ->
      run_notification_schedule env orm None (Some g) w = (Ok tt, w)).
Proof.
  split; intros Hstart.
  - rewrite run_notification_schedule_job, job_within_notification_window_spec.
    unfold job_decision. cbv zeta. rewrite Hstart. reflexivity.
  - rewrite run_notification_schedule_subject_group,
      subject_group_within_notification_window_spec.
    unfold subject_group_decision. cbv zeta. rewrite Hstart. reflexivity.
Qed.

Lemma not_started_dispatch_does_nothing_witness :
  run_notification_schedule env0 orm0 (Some job0) None
    (world_of before_start_schedule (100 * day))
  = (Ok tt, world_of before_start_schedule (100 * day)).
Proof.
  apply (proj1 (not_started_dispatch_does_nothing env0 orm0
                  (world_of before_start_schedule (100 * day)) job0 group0)).
  reflexivity.
Defined.

(** The builders read the filters only. *)
Lemma job_gaia_users_models_set_active orm b s job :
  job_gaia_users_models orm (set_active b s) job = job_gaia_users_models orm s job.
Proof. reflexivity. Qed.

Lemma send_notifications_email_only env t (w : World) d ds emails :
  is_set (smtp_connector (self w)) = true ->
  twilio_connector (self w) = None ->
  contextual_notification_template (self w) = Some t ->
  mapM (email_for env t) (d :: ds) = Ok emails ->
  send_notifications env (d :: ds) w = (Ok tt, stamped (delivered emails w)).
Proof.
  intros Hsmtp Htwilio Ht Hmap. unfold send_notifications.
  unfold mbind at 1, M_bind at 1, get_self at 1. rewrite Hsmtp.
  unfold mbind at 1, M_bind at 1, when at 1.
  rewrite (send_email_notifications_succeeds env t (d :: ds) emails w Ht Hmap).
  cbn [nonempty].
  unfold mbind, M_bind, get_self, when, send_slack_notifications, mret, M_ret.
  simpl. rewrite Htwilio. simpl.
  destruct (slack_connector (self w)); reflexivity.
Qed.

(** X20: a one-shot job schedule whose window is open is deactivated before
    its audience is built: when the build raises, or yields nobody, the
    dispatch ends with the schedule deactivated and nothing sent. *)
Theorem one_shot_retires_without_a_send env orm (w : World) (j : Job) :
  truthy (recurring (self w)) = false ->
  job_started (self w) j (clock w) = true ->
  job_ended (self w) j (clock w) = false ->
  (forall e,
     job_gaia_users_models orm (self w) (job_as_job orm j) = Raise e ->
     run_notification_schedule env orm (Some j) None w = (Raise e, deactivated w))
  /\ (job_gaia_users_models orm (self w) (job_as_job orm j) = Ok [] ->
      run_notification_schedule env orm (Some j) None w = (Ok tt, deactivated w)).
Proof.
  intros Hrec Hstart Hend.
  assert (Heval : job_within_notification_window j w = (Ok true, deactivated w)).
  { rewrite job_within_notification_window_spec. unfold job_decision.
    cbv zeta. rewrite Hstart, Hend, Hrec. reflexivity. }
  split.
  - intros e Hbuild. rewrite run_notification_schedule_job, Heval.
    change (self (deactivated w)) with (set_active false (self w)).
    rewrite job_gaia_users_models_set_active, Hbuild. reflexivity.
  - intros Hbuild. rewrite run_notification_schedule_job, Heval.
    change (self (deactivated w)) with (set_active false (self w)).
    rewrite job_gaia_users_models_set_active, Hbuild. reflexivity.
Qed.

Lemma one_shot_retires_without_a_send_witness :
  run_notification_schedule env_ok orm0 (Some job0) None
    (world_of booked_email_schedule (5 * day))
  = (Raise TypeError, deactivated (world_of booked_email_schedule (5 * day)))
  /\ run_notification_schedule env_ok orm0 (Some job0) None
       (world_of job_schedule (5 * day))
     = (Ok tt, deactivated (world_of job_schedule (5 * day))).
Proof.
  split.
  - apply (proj1 (one_shot_retires_without_a_send env_ok orm0
                    (world_of booked_email_schedule (5 * day)) job0
                    eq_refl eq_refl eq_refl)).
    by_evaluation.
  - apply (proj2 (one_shot_retires_without_a_send env_ok orm0
                    (world_of job_schedule (5 * day)) job0
                    eq_refl eq_refl eq_refl)).
    reflexivity.
Defined.

(** X21: a dispatch of a job schedule with the email channel alone, its
    window open and every delivery succeeding, mails the whole audience in
    its order and stamps [last_sent_at] with the current instant; a one-shot
    schedule ends deactivated, a recurring one stays active. *)
Theorem job_dispatch_mails_the_audience env orm (w : World) (j : Job) t d ds emails :
  job_started (self w) j (clock w) = true ->
  job_ended (self w) j (clock w) = false ->
  job_gaia_users_models orm (self w) (job_as_job orm j) = Ok (d :: ds) ->
  is_set (smtp_connector (self w)) = true ->
  twilio_connector (self w) = None ->
  contextual_notification_template (self w) = Some t ->
  mapM (email_for env t) (d :: ds) = Ok emails ->
  run_notification_schedule env orm (Some j) None w
  = (Ok tt,
     stamped (delivered emails
                (if truthy (recurring (self w)) then w else deactivated w))).
Proof.
  intros Hstart Hend Hbuild Hsmtp Htwilio Ht Hmap.
  rewrite run_notification_schedule_job, job_within_notification_window_spec.
  unfold job_decision. cbv zeta. rewrite Hstart, Hend.
  destruct (truthy (recurring (self w))).
  - rewrite Hbuild. apply (send_notifications_email_only env t); assumption.
  - change (self (deactivated w)) with (set_active false (self w)).
    rewrite job_gaia_users_models_set_active, Hbuild.
    apply (send_notifications_email_only env t); assumption.
Qed.

Lemma job_dispatch_mails_the_audience_witness :
  run_notification_schedule env_ok orm0 (Some job0) None
    (world_of staff_email_schedule (5 * day))
  = (Ok tt,
     stamped (delivered [mail alice; mail bob]
                (deactivated (world_of staff_email_schedule (5 * day))))).
Proof.
  apply (job_dispatch_mails_the_audience env_ok orm0
           (world_of staff_email_schedule (5 * day)) job0 template0
           dict_alice [dict_bob]).
  - reflexivity.
  - reflexivity.
  - by_evaluation.
  - reflexivity.
  - reflexivity.
  - reflexivity.
  - by_evaluation.
Defined.

(** The outcome of a dispatch for a job root whose window is open, with the
    email channel alone and every delivery succeeding. *)
Lemma run_notification_schedule_job_mails env orm (w : World) (j : Job) t d ds emails :
  job_started (self w) j (clock w) = true ->
  job_ended (self w) j (clock w) = false ->
  job_gaia_users_models orm (self w) (job_as_job orm j) = Ok (d :: ds) ->
  is_set (smtp_connector (self w)) = true ->
  twilio_connector (self w) = None ->
  contextual_notification_template (self w) = Some t ->
  mapM (email_for env t) (d :: ds) = Ok emails ->
  run_notification_schedule env orm (Some j) None w
  = (Ok tt,
     stamped (delivered emails
                (if truthy (recurring (self w)) then w else deactivated w))).
Proof.
  intros Hstart Hend Hbuild Hsmtp Htwilio Ht Hmap.
  rewrite run_notification_schedule_job, job_within_notification_window_spec.
  unfold job_decision. cbv zeta. rewrite Hstart, Hend.
  destruct (truthy (recurring (self w))).
  - rewrite Hbuild. apply (send_notifications_email_only env t); assumption.
  - change (self (deactivated w)) with (set_active false (self w)).
    rewrite job_gaia_users_models_set_active, Hbuild.
    apply (send_notifications_email_only env t); assumption.
Qed.

(** X22: a dispatch does not look at [active]: a one-shot job schedule that
    a first dispatch has mailed and deactivated is mailed again, to the same
    audience, by a second dispatch at the same instant. *)
Theorem deactivated_schedule_is_dispatched_again env orm (w : World) (j : Job)
    t d ds emails :
  truthy (recurring (self w)) = false ->
  job_started (self w) j (clock w) = true ->
  job_ended (self w) j (clock w) = false ->
  job_gaia_users_models orm (self w) (job_as_job orm j) = Ok (d :: ds) ->
  is_set (smtp_connector (self w)) = true ->
  twilio_connector (self w) = None ->
  contextual_notification_template (self w) = Some t ->
  mapM (email_for env t) (d :: ds) = Ok emails ->
  let w1 := snd (run_notification_schedule env orm (Some j) None w) in
  let w2 := snd (run_notification_schedule env orm (Some j) None w1) in
  active (self w1) = false
  /\ fst (run_notification_schedule env orm (Some j) None w1) = Ok tt
  /\ outbox w2 = outbox w ++ emails ++ emails.
Proof.
  intros Hrec Hstart Hend Hbuild Hsmtp Htwilio Ht Hmap. cbv zeta.
  rewrite (run_notification_schedule_job_mails env orm w j t d ds emails)
    by assumption.
  rewrite Hrec. cbn [snd].
  rewrite (run_notification_schedule_job_mails env orm
             (stamped (delivered emails (deactivated w))) j t d ds emails)
    by assumption.
  change (truthy (recurring (self (stamped (delivered emails (deactivated w))))))
    with (truthy (recurring (self w))).
  rewrite Hrec. repeat split.
  unfold stamped, delivered, deactivated. cbn [outbox snd].
  symmetry. apply app_assoc.
Qed.

Lemma deactivated_schedule_is_dispatched_again_witness :
  outbox (snd (run_notification_schedule env_ok orm0 (Some job0) None
                 (snd (run_notification_schedule env_ok orm0 (Some job0) None
                         (world_of staff_email_schedule (5 * day))))))
  = [mail alice; mail bob; mail alice; mail bob].
Proof.
  refine (proj2 (proj2 (deactivated_schedule_is_dispatched_again env_ok orm0
                          (world_of staff_email_schedule (5 * day)) job0
                          template0 dict_alice [dict_bob] [mail alice; mail bob]
                          eq_refl eq_refl eq_refl _ eq_refl eq_refl eq_refl _))).
  - by_evaluation.
  - by_evaluation.
Defined.

(** ** [SMTPConnector.send_email] and [Notification.__str__] *)

Lemma send_email_parts mailer user smtp_client recipient subject html message
    template context attachments :
  send_email mailer user smtp_client recipient subject html message template
    context attachments
  = parts ← email_parts mailer html message template context attachments;
    let email :=
      {| msg_subject := String.append subject (String "010"%char EmptyString);
         msg_to := recipient;
         msg_from := user;
         msg_parts := parts;
         content_subtype := if html then Some "html" else None;
         mixed_subtype := if html then Some "related" else None |} in
    match smtp_client email with
    | Ok _ => Ok email
    | Raise _ => Raise EmailException
    end.
Proof.
  unfold send_email, email_parts, mbind, result_bind. cbv zeta.
  repeat match goal with
         | |- context [match ?r with Ok _ => _ | Raise _ => _ end] =>
             destruct r; try reflexivity
         | |- context [match ?r with Some _ => _ | None => _ end] =>
             destruct r; try reflexivity
         | |- context [match ?r with EmptyString => _ | String _ _ => _ end] =>
             destruct r; try reflexivity
         | |- context [if ?b then _ else _] => destruct b; try reflexivity
         | |- context [match ?r with [] => _ | _ :: _ => _ end] =>
             destruct r; try reflexivity
         end.
Qed.

(** The loop over the attachments appends one part per path, in order. *)
Lemma attach_loop mailer paths :
  forall parts parts',
    for_each paths (fun parts attachement =>
      attachment ← attachment_part mailer attachement;
      Ok (parts ++ [attachment])) parts = Ok parts' ->
    exists attached,
      mapM (attachment_part mailer) paths = Ok attached
      /\ parts' = parts ++ attached.
Proof.
  induction paths as [|a paths IH]; intros parts parts' Hrun.
  - injection Hrun as <-. exists []. split; [reflexivity|].
    rewrite app_nil_r. reflexivity.
  - cbn [for_each] in Hrun. unfold mbind at 1, result_bind at 1 in Hrun.
    unfold mbind at 1, result_bind at 1 in Hrun.
    destruct (attachment_part mailer a) as [p|] eqn:Hp; [|discriminate].
    destruct (IH _ _ Hrun) as (attached & Hmap & ->).
    exists (p :: attached). split.
    + cbn [mapM]. unfold mbind at 1, result_bind at 1. rewrite Hp.
      unfold mbind at 1, result_bind at 1. rewrite Hmap. reflexivity.
    + rewrite <- app_assoc. reflexivity.
Qed.

Lemma email_parts_tail mailer (html : bool) (body : string)
    (attachments : option (list string)) parts :
  (parts0 ← (if html then
               logo ← logo_img mailer;
               Ok [MIMEText "html" body; logo]
             else Ok [MIMEText "plain" body]);
   match attachments with
   | Some (a :: rest) =>
       for_each (a :: rest) (fun parts attachement =>
         attachment ← attachment_part mailer attachement;
         Ok (parts ++ [attachment])) parts0
   | Some [] | None => Ok parts0
   end) = Ok parts ->
  exists attached,
    mapM (attachment_part mailer) (default [] attachments) = Ok attached
    /\ if html then
         exists logo,
           logo_img mailer = Ok logo
           /\ parts = [MIMEText "html" body; logo] ++ attached
       else parts = [MIMEText "plain" body] ++ attached.
Proof.
  intros Hrun. unfold mbind at 1, result_bind at 1 in Hrun.
  destruct html.
  - unfold mbind at 1, result_bind at 1 in Hrun.
    destruct (logo_img mailer) as [logo|] eqn:Hlogo; [|discriminate].
    destruct attachments as [[|a paths]|]; cbn [default].
    + injection Hrun as <-. exists []. split; [reflexivity|].
      exists logo. split; reflexivity.
    + apply attach_loop in Hrun as (attached & Hmap & ->).
      exists attached. split; [exact Hmap|]. exists logo. split; reflexivity.
    + injection Hrun as <-. exists []. split; [reflexivity|].
      exists logo. split; reflexivity.
  - destruct attachments as [[|a paths]|]; cbn [default].
    + injection Hrun as <-. exists []. split; reflexivity.
    + apply attach_loop in Hrun as (attached & Hmap & ->).
      exists attached. split; [exact Hmap|]. reflexivity.
    + injection Hrun as <-. exists []. split; reflexivity.
Qed.

(** X23: the message [send_email] has sent goes to the recipient, with the
    subject followed by a newline and the connector's user as sender; it was
    accepted by the client; its parts are the body (the message, or the
    rendered template when the message is missing or empty), as HTML
    followed by the logo or as plain text, and then one part per attachment
    in the order of the paths. *)
Theorem sent_message_layout mailer user smtp_client recipient subject html
    message template context attachments email :
  send_email mailer user smtp_client recipient subject html message template
    context attachments = Ok email ->
  msg_to email = recipient
  /\ msg_subject email = String.append subject (String "010"%char EmptyString)
  /\ msg_from email = user
  /\ smtp_client email = Ok tt
  /\ exists body attached,
       match message with
       | Some (String c rest) => body = String c rest
       | Some EmptyString | None =>
           render_template mailer template (default ∅ context) = Ok body
       end
       /\ mapM (attachment_part mailer) (default [] attachments) = Ok attached
       /\ if html then
            exists logo,
              logo_img mailer = Ok logo
              /\ msg_parts email = [MIMEText "html" body; logo] ++ attached
          else msg_parts email = [MIMEText "plain" body] ++ attached.
Proof.
  rewrite send_email_parts. unfold mbind at 1, result_bind at 1.
  destruct (email_parts mailer html message template context attachments)
    as [parts|] eqn:Hparts; [|discriminate].
  cbv zeta.
  match goal with
  | |- match smtp_client ?m with Ok _ => _ | Raise _ => _ end = _ -> _ =>
      destruct (smtp_client m) as [[]|] eqn:Hclient; [|discriminate]
  end.
  intros [= <-]. cbn [msg_to msg_subject msg_from msg_parts].
  repeat (split; [first [reflexivity|exact Hclient]|]).
  revert Hparts. unfold email_parts. cbv zeta.
  unfold mbind at 1, result_bind at 1.
  change (match context with Some c => c | None => ∅ end)
    with (default ∅ context).
  destruct message as [[|c rest]|].
  - destruct (render_template mailer template (default ∅ context))
      as [body|] eqn:Hrender; [|discriminate].
    intros Hrun. apply email_parts_tail in Hrun as (attached & Hmap & Hlayout).
    exists body, attached. auto.
  - intros Hrun. apply email_parts_tail in Hrun as (attached & Hmap & Hlayout).
    exists (String c rest), attached. auto.
  - destruct (render_template mailer template (default ∅ context))
      as [body|] eqn:Hrender; [|discriminate].
    intros Hrun. apply email_parts_tail in Hrun as (attached & Hmap & Hlayout).
    exists body, attached. auto.
Qed.

Lemma sent_message_layout_witness :
  exists email,
    send_email mailer0 (Some "studio@example.org") accepting_client
      "alice@example.org" "Your photos" true (Some "") (Some "reminder.html")
      None (Some ["/srv/files/proofs.pdf"; "/srv/files/cover.png"]) = Ok email
    /\ msg_subject email = String.append "Your photos" (String "010"%char EmptyString)
    /\ msg_parts email
       = [ MIMEText "html" "rendered"; MIMEImage;
           MIMEBase "application" "pdf" "bytes" "proofs.pdf";
           MIMEBase "image" "png" "bytes" "cover.png" ].
Proof.
  eexists. split; [reflexivity|].
  split.
  - apply (sent_message_layout mailer0 (Some "studio@example.org")
             accepting_client "alice@example.org" "Your photos" true (Some "")
             (Some "reminder.html") None
             (Some ["/srv/files/proofs.pdf"; "/srv/files/cover.png"])).
    reflexivity.
  - reflexivity.
Defined.

(** X24: an attachment whose type [guess_type] does not know makes
    [send_email] raise before the client is reached: the exception is the
    same whatever the client would do.  When the message is built, whatever
    the client raises is raised as [EmailException]. *)
Theorem send_email_errors mailer user recipient subject html message template
    context :
  (forall paths a,
     a ∈ paths -> guess_type mailer a = None ->
     exists e, forall smtp_client,
       send_email mailer user smtp_client recipient subject html message
         template context (Some paths) = Raise e)
  /\ (forall attachments parts smtp_client,
        email_parts mailer html message template context attachments = Ok parts ->
        (forall m, raises (smtp_client m) = true) ->
        send_email mailer user smtp_client recipient subject html message
          template context attachments = Raise EmailException).
Proof.
  split.
  - intros paths a Hin Hguess.
    assert (Hraises : raises (email_parts mailer html message template context
                                (Some paths)) = true).
    { unfold email_parts. cbv zeta.
      unfold mbind at 1, result_bind at 1.
      match goal with |- context [match ?r with Ok _ => _ | Raise _ => _ end] =>
        destruct r; [|reflexivity] end.
      unfold mbind at 1, result_bind at 1.
      match goal with |- context [match ?r with Ok _ => _ | Raise _ => _ end] =>
        destruct r; [|reflexivity] end.
      destruct paths as [|p paths]; [inversion Hin|].
      apply (for_each_raises _ _ a Hin). intros acc.
      unfold attachment_part. rewrite Hguess. reflexivity. }
    destruct (email_parts mailer html message template context (Some paths))
      as [parts|e] eqn:Hparts; [discriminate|].
    exists e. intros smtp_client. rewrite send_email_parts, Hparts. reflexivity.
  - intros attachments parts smtp_client Hparts Hclient.
    rewrite send_email_parts, Hparts. unfold mbind, result_bind. cbv zeta.
    match goal with
    | |- match smtp_client ?m with Ok _ => _ | Raise _ => _ end = _ =>
        specialize (Hclient m); destruct (smtp_client m); [discriminate|]
    end.
    reflexivity.
Qed.

Lemma send_email_errors_witness :
  (exists e, forall smtp_client,
     send_email mailer0 None smtp_client "alice@example.org" "Your photos"
       false (Some "hello") None None
       (Some ["/srv/files/proofs.pdf"; "/srv/files/notes.xyz"]) = Raise e)
  /\ send_email mailer0 None (fun _ => Raise KeyError) "alice@example.org"
       "Your photos" false (Some "hello") None None None
     = Raise EmailException.
Proof.
  split.
  - apply (proj1 (send_email_errors mailer0 None "alice@example.org"
                    "Your photos" false (Some "hello") None None)
             ["/srv/files/proofs.pdf"; "/srv/files/notes.xyz"]
             "/srv/files/notes.xyz").
    + apply elem_of_cons. right. apply elem_of_cons. left. reflexivity.
    + reflexivity.
  - apply (proj2 (send_email_errors mailer0 None "alice@example.org"
                    "Your photos" false (Some "hello") None None)
             None [MIMEText "plain" "hello"]).
    + reflexivity.
    + reflexivity.
Defined.

(** X25: [str] of a notification raises [UnboundLocalError] exactly when
    none of its three connectors is set; otherwise the kind is that of the
    first connector set, email before SMS before Slack. *)
Theorem notification_str_needs_a_connector (n : Notification) (gaia_user : string) :
  (notification_str n gaia_user = Raise UnboundLocalError
   <-> notification_smtp_connector n = None
       /\ notification_twilio_connector n = None
       /\ notification_slack_connector n = None)
  /\ (is_set (notification_smtp_connector n) = true ->
      notification_str n gaia_user
      = Ok (String.append "Email notification to " gaia_user))
  /\ (notification_smtp_connector n = None ->
      is_set (notification_twilio_connector n) = true ->
      notification_str n gaia_user
      = Ok (String.append "SMS notification to " gaia_user))
  /\ (notification_smtp_connector n = None ->
      notification_twilio_connector n = None ->
      is_set (notification_slack_connector n) = true ->
      notification_str n gaia_user
      = Ok (String.append "Slack notification to " gaia_user)).
Proof.
  unfold notification_str.
  destruct (notification_smtp_connector n), (notification_twilio_connector n),
    (notification_slack_connector n); simpl;
    repeat split; intros; try discriminate; try reflexivity;
    repeat match goal with H : _ /\ _ |- _ => destruct H end;
    discriminate.
Qed.

Lemma notification_str_needs_a_connector_witness :
  notification_str
    {| notification_smtp_connector := None;
       notification_twilio_connector := None;
       notification_slack_connector := None |} "alice"
  = Raise UnboundLocalError
  /\ notification_str
       {| notification_smtp_connector := Some "smtp";
          notification_twilio_connector := Some "twilio";
          notification_slack_connector := None |} "alice"
     = Ok "Email notification to alice"
  /\ notification_str
       {| notification_smtp_connector := None;
          notification_twilio_connector := Some "twilio";
          notification_slack_connector := Some "slack" |} "alice"
     = Ok "SMS notification to alice"
  /\ notification_str
       {| notification_smtp_connector := None;
          notification_twilio_connector := None;
          notification_slack_connector := Some "slack" |} "alice"
     = Ok "Slack notification to alice".
Proof.
  split; [|split; [|split]].
  - apply (proj1 (notification_str_needs_a_connector _ "alice")).
    repeat split.
  - apply (proj1 (proj2 (notification_str_needs_a_connector
                           {| notification_smtp_connector := Some "smtp";
                              notification_twilio_connector := Some "twilio";
                              notification_slack_connector := None |} "alice"))).
    reflexivity.
  - apply (proj1 (proj2 (proj2 (notification_str_needs_a_connector
                           {| notification_smtp_connector := None;
                              notification_twilio_connector := Some "twilio";
                              notification_slack_connector := Some "slack" |}
                           "alice")))); reflexivity.
  - apply (proj2 (proj2 (proj2 (notification_str_needs_a_connector
                           {| notification_smtp_connector := None;
                              notification_twilio_connector := None;
                              notification_slack_connector := Some "slack" |}
                           "alice")))); reflexivity.
Defined.

(** ** The subject line of a mail *)

Lemma subscript_missing d key :
  key ∉ d.*1 -> subscript d key = Raise KeyError.
Proof.
  induction d as [|[k v] d IH]; cbn [subscript fmap list_fmap fst];
    intros Hnotin; [reflexivity|].
  apply not_elem_of_cons in Hnotin as [Hne Hnotin].
  rewrite (IH Hnotin). rewrite bool_decide_eq_false_2 by congruence.
  reflexivity.
Qed.

Lemma subscript_present d key v :
  NoDup d.*1 -> (key, v) ∈ d -> subscript d key = Ok v.
Proof.
  induction d as [|[k v'] d IH]; cbn [subscript fmap list_fmap fst];
    intros Hnd Hin; [inversion Hin|].
  apply NoDup_cons in Hnd as [Hnotin Hnd].
  apply elem_of_cons in Hin as [[= -> ->]|Hin].
  - rewrite (subscript_missing d k Hnotin).
    rewrite bool_decide_eq_true_2 by reflexivity. reflexivity.
  - rewrite (IH Hnd Hin). reflexivity.
Qed.

(** X26: the subject line of a mail is the entry [email_subject] of the
    template as it is written, also when the entry is a field reference; a
    template without the entry cannot be mailed: once the body is rendered
    the connector raises [KeyError], and so does the dispatch, with nothing
    delivered and nothing stamped. *)
Theorem subject_line_is_the_raw_entry env (t : ContextualNotificationTemplate)
    (d : bundle) (w : World) :
  (forall subject w',
     NoDup (context t).*1 ->
     ("email_subject", subject) ∈ context t ->
     smtp_send_contextual_template_notification env d (Some t) w = (Ok tt, w') ->
     exists e, w' = delivered [e] w /\ email_subject e = subject)
  /\ (forall message recipient ds,
        "email_subject" ∉ (context t).*1 ->
        render env t (Some d) = Ok message ->
        d !! "gaia_user" = Some recipient ->
        smtp_send_contextual_template_notification env d (Some t) w
        = (Raise KeyError, w)
        /\ (is_set (smtp_connector (self w)) = true ->
            contextual_notification_template (self w) = Some t ->
            send_notifications env (d :: ds) w = (Raise KeyError, w))).
Proof.
  split.
  - intros subject w' Hnd Hin.
    rewrite smtp_send_contextual_template_notification_spec.
    unfold email_for, mbind, result_bind.
    rewrite (subscript_present _ _ _ Hnd Hin).
    destruct (render env t (Some d)) as [message|]; [|discriminate].
    destruct (d !! "gaia_user") as [g|]; [|discriminate].
    destruct (send_email_task env g subject (html t) message) as [[]|];
      [|discriminate].
    intros [= <-]. eexists. split; reflexivity.
  - intros message recipient ds Hmissing Hrender Hrecipient.
    assert (Hmail : email_for env t d = Raise KeyError).
    { unfold email_for, mbind, result_bind.
      rewrite Hrender, Hrecipient, (subscript_missing _ _ Hmissing).
      reflexivity. }
    split.
    + rewrite smtp_send_contextual_template_notification_spec, Hmail.
      reflexivity.
    + intros Hsmtp Ht. unfold send_notifications.
      unfold mbind at 1, M_bind at 1, get_self at 1. rewrite Hsmtp.
      unfold mbind at 1, M_bind at 1, when at 1.
      change (d :: ds) with ([] ++ d :: ds).
      rewrite (send_email_notifications_fails env t [] d ds KeyError [] w Ht
                 eq_refl Hmail).
      rewrite delivered_nil. reflexivity.
Qed.

Lemma subject_line_is_the_raw_entry_witness :
  (exists e,
     snd (smtp_send_contextual_template_notification env_ok staff_dict
            (Some template_with_reference_subject)
            (world_of email_schedule (5 * day)))
     = delivered [e] (world_of email_schedule (5 * day))
     /\ email_subject e = "@Job.name")
  /\ smtp_send_contextual_template_notification env_ok staff_dict
       (Some template_without_subject) (world_of email_schedule (5 * day))
     = (Raise KeyError, world_of email_schedule (5 * day)).
Proof.
  split.
  - apply (proj1 (subject_line_is_the_raw_entry env_ok
                    template_with_reference_subject staff_dict
                    (world_of email_schedule (5 * day))) "@Job.name").
    + by_evaluation.
    + apply elem_of_cons. left. reflexivity.
    + reflexivity.
  - apply (proj2 (subject_line_is_the_raw_entry env_ok template_without_subject
                    staff_dict (world_of email_schedule (5 * day)))
             "hello" (inst_gaia_user alice) []).
    + apply (bool_decide_unpack _). vm_compute. exact I.
    + reflexivity.
    + reflexivity.
Defined.
